(** * Feature-extraction pipeline of the phishing-website detector

    A shallow embedding of [src/utils/feature_extractor.py] (class
    [FeatureExtractor]), of the feature-name table of [src/config.py] and
    of [WebsiteAnalyzer.get_features_array] of [src/app.py], together with
    the properties the specification states about them.

    Conventions of the embedding:
    - a Python [str] is a [str], a sequence of Unicode code points, so
      [len] counts code points and [\d] is the class of the decimal
      digits of Unicode;
    - a Python [int] is a [Z];
    - the feature dictionary [self.features] is a [gmap string Z]: the
      feature names, the model names and the names of exception classes
      are ASCII constants of the source and are kept as [string];
    - the collaborators the code calls (HTTP session, HTML parser, WHOIS
      client, TLS socket, clock) are an interface over an abstract world
      that every call may change, so a theorem quantified over the
      interface holds for every behaviour of the collaborators;
    - an exception is a value of [exn]; [try]/[except] is written out. *)

From Stdlib Require Import ZArith Ascii String List Bool Lia.
From stdpp Require Import gmap strings list.

Local Open Scope Z_scope.

(** ** Python strings *)

(** A [str]: its code points, first to last. *)
Inductive str : Type :=
| EmptyStr
| Str (c : N) (s : str).

Declare Scope str_scope.
Delimit Scope str_scope with str.
Bind Scope str_scope with str.

(** A literal of the source, which is ASCII: one code point for each
    byte. *)
Fixpoint str_of_bytes (l : list Byte.byte) : str :=
  match l with
  | [] => EmptyStr
  | b :: l' => Str (Byte.to_N b) (str_of_bytes l')
  end.

Fixpoint bytes_of_str (s : str) : option (list Byte.byte) :=
  match s with
  | EmptyStr => Some []
  | Str c s' =>
      match Byte.of_N c, bytes_of_str s' with
      | Some b, Some l => Some (b :: l)
      | _, _ => None
      end
  end.

String Notation str str_of_bytes bytes_of_str : str_scope.

(** [ord(c)] of an ASCII character *)
Definition ord (c : ascii) : N := N_of_ascii c.

(** the code points of the one-character literals of the source *)
Abbreviation ord_dot := 46%N (only parsing).       (* [ord('.')] *)
Abbreviation ord_colon := 58%N (only parsing).     (* [ord(':')] *)
Abbreviation ord_newline := 10%N (only parsing).   (* [ord('\n')] *)

(** [a + b] *)
Fixpoint str_add (a b : str) : str :=
  match a with
  | EmptyStr => b
  | Str c a' => Str c (str_add a' b)
  end.

Infix "+++" := str_add (at level 60, right associativity).

(** [a == b] *)
Fixpoint str_eqb (a b : str) : bool :=
  match a, b with
  | EmptyStr, EmptyStr => true
  | Str x a', Str y b' => N.eqb x y && str_eqb a' b'
  | _, _ => false
  end.

(** the number of code points *)
Fixpoint str_length (s : str) : nat :=
  match s with
  | EmptyStr => O
  | Str _ s' => S (str_length s')
  end.

(** The string of the code points [l]. *)
Definition str_of_code_points (l : list N) : str := foldr Str EmptyStr l.

(** ** Python built-ins on strings used by the source *)

Module Py.

(** [s.startswith(p)] *)
Fixpoint startswith (s p : str) {struct p} : bool :=
  match p with
  | EmptyStr => true
  | Str a p' =>
      match s with
      | EmptyStr => false
      | Str b s' => if N.eqb a b then startswith s' p' else false
      end
  end.

(** [s.startswith((p1, p2, ...))]: a tuple of prefixes *)
Definition startswith_any (s : str) (ps : list str) : bool :=
  existsb (startswith s) ps.

(** [p in s] for strings: [p] occurs as a substring of [s] *)
Fixpoint contains (p s : str) : bool :=
  startswith s p ||
  match s with
  | EmptyStr => false
  | Str _ s' => contains p s'
  end.

(** [s[n:]] for a non-negative constant [n] *)
Fixpoint slice_from (n : nat) (s : str) : str :=
  match n, s with
  | O, _ => s
  | S _, EmptyStr => EmptyStr
  | S n', Str _ s' => slice_from n' s'
  end.

(** [s.split(c)] for a one-character separator: the pieces between the
    occurrences of [c]; never empty ([''.split('.')] is [['']]) *)
Fixpoint split (c : N) (s : str) : list str :=
  match s with
  | EmptyStr => [EmptyStr]
  | Str a s' =>
      if N.eqb a c then EmptyStr :: split c s'
      else match split c s' with
           | [] => [Str a EmptyStr]
           | w :: ws => Str a w :: ws
           end
  end.

(** [sep.join(parts)] *)
Fixpoint join (sep : str) (parts : list str) : str :=
  match parts with
  | [] => EmptyStr
  | [w] => w
  | w :: ws => w +++ sep +++ join sep ws
  end.

(** [len(s)] *)
Definition len (s : str) : Z := Z.of_nat (str_length s).

(** [range(n)] *)
Definition range (n : Z) : list Z := map Z.of_nat (seq 0 (Z.to_nat n)).

(** truth value of a string: non-empty *)
Definition truthy (s : str) : bool :=
  match s with EmptyStr => false | _ => true end.

End Py.

(** ** [FeatureExtractor.normalize_url] *)

Definition normalize_url (url : str) : str :=
  if negb (Py.startswith_any url ["http://"; "https://"]%str)
  then "http://" +++ url
  else url.

(** ** The regular expression of the IP-literal test

    [re.match(r'^\d+\.\d+\.\d+\.\d+$', netloc)]: regular expressions as a
    syntax tree, matched with derivatives. *)

Module Re.

Inductive re : Type :=
| Void                         (* matches nothing *)
| Eps                          (* the empty string *)
| Class (f : N -> bool)        (* one character of a class *)
| Seq (r1 r2 : re)
| Alt (r1 r2 : re)
| Star (r : re).

Fixpoint nullable (r : re) : bool :=
  match r with
  | Void => false
  | Eps => true
  | Class _ => false
  | Seq r1 r2 => nullable r1 && nullable r2
  | Alt r1 r2 => nullable r1 || nullable r2
  | Star _ => true
  end.

Fixpoint deriv (c : N) (r : re) : re :=
  match r with
  | Void => Void
  | Eps => Void
  | Class f => if f c then Eps else Void
  | Seq r1 r2 =>
      if nullable r1 then Alt (Seq (deriv c r1) r2) (deriv c r2)
      else Seq (deriv c r1) r2
  | Alt r1 r2 => Alt (deriv c r1) (deriv c r2)
  | Star r1 => Seq (deriv c r1) (Star r1)
  end.

(** the whole of [s] matches [r] *)
Fixpoint fullmatch (r : re) (s : str) : bool :=
  match s with
  | EmptyStr => nullable r
  | Str c s' => fullmatch (deriv c r) s'
  end.

(** The decimal digits of Unicode (general category [Nd]), as ranges of
    code points, first and last: the database of version 14.0, which is
    that of CPython 3.11.  The first range is 0-9. *)
Definition decimal_ranges : list (N * N) :=
  [ (48, 57); (1632, 1641); (1776, 1785); (1984, 1993); (2406, 2415);
    (2534, 2543); (2662, 2671); (2790, 2799); (2918, 2927); (3046, 3055);
    (3174, 3183); (3302, 3311); (3430, 3439); (3558, 3567); (3664, 3673);
    (3792, 3801); (3872, 3881); (4160, 4169); (4240, 4249); (6112, 6121);
    (6160, 6169); (6470, 6479); (6608, 6617); (6784, 6793); (6800, 6809);
    (6992, 7001); (7088, 7097); (7232, 7241); (7248, 7257); (42528, 42537);
    (43216, 43225); (43264, 43273); (43472, 43481); (43504, 43513);
    (43600, 43609); (44016, 44025); (65296, 65305); (66720, 66729);
    (68912, 68921); (69734, 69743); (69872, 69881); (69942, 69951);
    (70096, 70105); (70384, 70393); (70736, 70745); (70864, 70873);
    (71248, 71257); (71360, 71369); (71472, 71481); (71904, 71913);
    (72016, 72025); (72784, 72793); (73040, 73049); (73120, 73129);
    (92768, 92777); (92864, 92873); (93008, 93017); (120782, 120831);
    (123200, 123209); (123632, 123641); (125264, 125273);
    (130032, 130041) ]%N.

(** [\d] in a pattern that is a [str]: any decimal digit of Unicode *)
Definition is_digit (c : N) : bool :=
  existsb (fun range => (fst range <=? c)%N && (c <=? snd range)%N) decimal_ranges.

Definition digit : re := Class is_digit.
Definition chr (c : N) : re := Class (N.eqb c).
(** [r+] *)
Definition plus (r : re) : re := Seq r (Star r).

Definition newline : N := ord_newline.

(** [$] closing a pattern: the end of the string, or a newline that is
    the last character of the string *)
Definition dollar : re := Alt Eps (chr newline).

(** [\d+\.\d+\.\d+\.\d+]; [^] adds nothing under [re.match], which
    matches at the start of the string only *)
Definition dotted_quad : re :=
  Seq (plus digit) (Seq (chr ord_dot)
 (Seq (plus digit) (Seq (chr ord_dot)
 (Seq (plus digit) (Seq (chr ord_dot)
      (plus digit)))))).

(** [re.match(r'^\d+\.\d+\.\d+\.\d+$', s)] is not [None] *)
Definition match_ip (s : str) : bool :=
  fullmatch (Seq dotted_quad dollar) s.

(** The strings a regular expression matches, as a relation; [fullmatch]
    is proved to decide it. *)
Inductive matches : re -> str -> Prop :=
| MEps : matches Eps ""
| MClass f c : f c = true -> matches (Class f) (Str c "")
| MSeq r1 r2 s1 s2 : matches r1 s1 -> matches r2 s2 -> matches (Seq r1 r2) (s1 +++ s2)
| MAltL r1 r2 s : matches r1 s -> matches (Alt r1 r2) s
| MAltR r1 r2 s : matches r2 s -> matches (Alt r1 r2) s
| MStarNil r : matches (Star r) ""
| MStarApp r s1 s2 : matches r s1 -> matches (Star r) s2 -> matches (Star r) (s1 +++ s2).

Fixpoint all_digits (s : str) : bool :=
  match s with
  | EmptyStr => true
  | Str c s' => is_digit c && all_digits s'
  end.

(** a non-empty string of digits *)
Definition number (s : str) : Prop := s <> ""%str /\ all_digits s = true.

End Re.

(** [192.168.1.1] written in Arabic-Indic digits (U+0660 to U+0669) *)
Definition arabic_indic_ip : str :=
  str_of_code_points [1633; 1641; 1634; 46; 1633; 1638; 1640; 46; 1633; 46; 1633]%N.

(** ** Exceptions

    The classes the handlers of the source tell apart.  Every value of
    [exn] is an instance of Python's [Exception]. *)

Inductive request_error : Type :=
| SSLError | ProxyError | ConnectionError | Timeout | HTTPError
| OtherRequestError.

Inductive exn : Type :=
| RequestException (k : request_error)   (* requests.exceptions.* *)
| PyException (name : string).           (* any other Exception: ValueError, TypeError, OSError, ... *)

(** [isinstance(e, (SSLError, ProxyError))] *)
Definition is_SSLError_or_ProxyError (e : exn) : bool :=
  match e with
  | RequestException SSLError | RequestException ProxyError => true
  | _ => false
  end.

(** [isinstance(e, RequestException)] *)
Definition is_RequestException (e : exn) : bool :=
  match e with
  | RequestException _ => true
  | PyException _ => false
  end.

Inductive result (A : Type) : Type :=
| Ret (a : A)
| Raise (e : exn).
Arguments Ret {A} a.
Arguments Raise {A} e.

(** ** Data of the collaborators *)

(** What [urlparse] returns; reading [port] raises [ValueError] on a
    malformed port. *)
Record ParsedURL : Type := {
  scheme : str;
  netloc : str;
  path : str;
  query : str;
  port : result (option Z)
}.

(** One HTTP request of the fetcher; headers, the timeout of 10 and
    [allow_redirects=True] are the same in every request. *)
Record Request : Type := {
  req_url : str;
  req_verify : bool
}.

Record Response : Type := {
  status_code : Z;
  text : str;
  history : list Z          (* one entry per redirect followed *)
}.

(** The queries the source makes on a parsed document. *)
Record Soup : Type := {
  find_all_form : list str;        (* [str(form)] for every [<form>] *)
  find_iframe : bool;                 (* [soup.find('iframe')] is not [None] *)
  find_all_script : list str;      (* [.string] of every [<script>] that has one *)
  str_soup : str;                  (* [str(soup)] *)
  find_all_a_href : list str;      (* [a['href']] for every [<a href>] *)
  find_link_icon : bool               (* [soup.find('link', rel='icon')] is not [None] *)
}.

(** A date of a WHOIS record: a [datetime] (an instant in microseconds,
    naive or timezone-aware) or a text the client could not parse. *)
Inductive whois_date : Type :=
| DateTime (t : Z) (aware : bool)
| DateText (s : str).

Inductive creation_date_t : Type :=
| NoDate                               (* [None] *)
| OneDate (d : whois_date)
| DateList (l : list whois_date).

Record WhoisEntry : Type := {
  creation_date : creation_date_t;
  name_servers : option (list str)
}.

Inductive Call : Type :=
| CallHead (rq : Request)
| CallGet (rq : Request) (r : result Response)
| CallWhois (url : str)
| CallTls (hostname : str).

(** ** The collaborators, over a world that each call may change *)

Class Collaborators (World : Type) : Type := {
  (** [urlparse(url)] *)
  urlparse : str -> ParsedURL;
  (** [session.head(...)]: [None] when it returns a response *)
  session_head : Request -> World -> option exn * World;
  (** [session.get(...)] *)
  session_get : Request -> World -> result Response * World;
  (** [BeautifulSoup(text, 'html.parser')] *)
  BeautifulSoup : str -> result Soup;
  (** [whois.whois(url)] *)
  whois_whois : str -> World -> result WhoisEntry * World;
  (** the TLS handshake with [(hostname, 443)], timeout 5:
      [create_default_context], [create_connection], [wrap_socket] *)
  tls_handshake : str -> World -> result unit * World;
  (** [datetime.now()], in microseconds *)
  datetime_now : World -> Z * World
}.

(** ** The extractor object *)

Record FeatureExtractor : Type := {
  url : str;
  parsed_url : ParsedURL;
  domain : str;
  html_content : option str;
  soup : option Soup;
  response : option Response;
  features : gmap string Z
}.

Definition set_url (v : str) (o : FeatureExtractor) : FeatureExtractor :=
  {| url := v; parsed_url := parsed_url o; domain := domain o;
     html_content := html_content o; soup := soup o; response := response o;
     features := features o |}.
Definition set_html_content (v : option str) (o : FeatureExtractor) : FeatureExtractor :=
  {| url := url o; parsed_url := parsed_url o; domain := domain o;
     html_content := v; soup := soup o; response := response o;
     features := features o |}.
Definition set_soup (v : option Soup) (o : FeatureExtractor) : FeatureExtractor :=
  {| url := url o; parsed_url := parsed_url o; domain := domain o;
     html_content := html_content o; soup := v; response := response o;
     features := features o |}.
Definition set_response (v : option Response) (o : FeatureExtractor) : FeatureExtractor :=
  {| url := url o; parsed_url := parsed_url o; domain := domain o;
     html_content := html_content o; soup := soup o; response := v;
     features := features o |}.
Definition set_features (v : gmap string Z) (o : FeatureExtractor) : FeatureExtractor :=
  {| url := url o; parsed_url := parsed_url o; domain := domain o;
     html_content := html_content o; soup := soup o; response := response o;
     features := v |}.

(** ** Canonical feature order *)

(** [feature_order] of [FeatureExtractor.get_feature_vector] *)
Definition feature_order : list string :=
  [ "having_ip_address"; "url_length"; "shortining_service"; "having_at_symbol";
    "double_slash_redirecting"; "prefix_suffix"; "having_sub_domain"; "sslfinal_state";
    "domain_registration_length"; "favicon"; "port"; "https_token"; "request_url";
    "url_of_anchor"; "links_in_tags"; "sfh"; "submitting_to_email"; "abnormal_url";
    "redirect"; "on_mouseover"; "rightclick"; "popupwindow"; "iframe"; "age_of_domain";
    "dnsrecord"; "web_traffic"; "page_rank"; "google_index"; "links_pointing_to_page";
    "statistical_report" ].

(** [FeatureExtractor.get_feature_vector], which reads [self.features] only:
    [[self.features.get(feature, 0) for feature in feature_order]] *)
Definition get_feature_vector (features : gmap string Z) : list Z :=
  (fun feature => default 0 (features !! feature)) <$> feature_order.

(** [FEATURE_NAMES] of [config.py] *)
Definition FEATURE_NAMES : list string :=
  [ "having_ip_address"; "url_length"; "shortining_service"; "having_at_symbol";
    "double_slash_redirecting"; "prefix_suffix"; "having_sub_domain"; "sslfinal_state";
    "domain_registration_length"; "favicon"; "port"; "https_token"; "request_url";
    "url_of_anchor"; "links_in_tags"; "sfh"; "submitting_to_email"; "abnormal_url";
    "redirect"; "on_mouseover"; "rightclick"; "popupwindow"; "iframe"; "age_of_domain";
    "dnsrecord"; "web_traffic"; "page_rank"; "google_index"; "links_pointing_to_page";
    "statistical_report" ].

Module WebsiteAnalyzer.

(** [feature_order] of [WebsiteAnalyzer.get_features_array] in [app.py] *)
Definition feature_order : list string :=
  [ "having_ip_address"; "url_length"; "shortining_service"; "having_at_symbol";
    "double_slash_redirecting"; "prefix_suffix"; "having_sub_domain"; "sslfinal_state";
    "domain_registration_length"; "favicon"; "port"; "https_token"; "request_url";
    "url_of_anchor"; "links_in_tags"; "sfh"; "submitting_to_email"; "abnormal_url";
    "redirect"; "on_mouseover"; "rightclick"; "popupwindow"; "iframe"; "age_of_domain";
    "dnsrecord"; "web_traffic"; "page_rank"; "google_index"; "links_pointing_to_page";
    "statistical_report" ].

(** The loop of [get_features_array]: append [self.features[feature]]
    when the key is present and [0] otherwise. *)
Definition append_feature (features : gmap string Z) (acc : list Z) (feature : string) : list Z :=
  match features !! feature with
  | Some v => acc ++ [v]
  | None => acc ++ [0]
  end.

(** [np.array([features])]: one row *)
Definition get_features_array (features : gmap string Z) : list (list Z) :=
  [ fold_left (append_feature features) feature_order [] ].

End WebsiteAnalyzer.

(** The keys each deriver writes. *)
Definition lexical_keys : list string :=
  [ "url_length"; "having_ip_address"; "shortining_service"; "having_at_symbol";
    "double_slash_redirecting"; "prefix_suffix"; "having_sub_domain"; "port";
    "https_token" ].

Definition structural_keys : list string :=
  [ "sfh"; "submitting_to_email"; "iframe"; "popupwindow"; "on_mouseover";
    "rightclick"; "url_of_anchor"; "links_in_tags"; "favicon" ].

Definition network_keys : list string :=
  [ "age_of_domain"; "domain_registration_length"; "dnsrecord"; "sslfinal_state";
    "redirect"; "web_traffic"; "page_rank"; "google_index"; "links_pointing_to_page";
    "statistical_report"; "abnormal_url" ].

(** [shorteners] of [_extract_url_features] *)
Definition shorteners : list str :=
  [ "bit.ly"; "tinyurl.com"; "goo.gl"; "t.co"; "ow.ly"; "is.gd"; "buff.ly";
    "bit.do"; "mcaf.ee"; "rebrand.ly" ]%str.

(** ** WHOIS dates *)

(** Truth value of [domain.creation_date] *)
Definition creation_date_truthy (c : creation_date_t) : bool :=
  match c with
  | NoDate => false
  | OneDate (DateTime _ _) => true
  | OneDate (DateText s) => Py.truthy s
  | DateList l => match l with [] => false | _ => true end
  end.

(** [a < b] on strings, by code points *)
Fixpoint str_lt (a b : str) : bool :=
  match a, b with
  | _, EmptyStr => false
  | EmptyStr, Str _ _ => true
  | Str x a', Str y b' =>
      if (x <? y)%N then true
      else if (y <? x)%N then false
      else str_lt a' b'
  end.

(** [x < cur] as [min] evaluates it: two naive or two aware datetimes
    compare by instant, two texts by code points, and any other pair
    raises [TypeError]. *)
Definition date_lt (x cur : whois_date) : result bool :=
  match x, cur with
  | DateTime t1 a1, DateTime t2 a2 =>
      if Bool.eqb a1 a2 then Ret (t1 <? t2) else Raise (PyException "TypeError")
  | DateText s1, DateText s2 => Ret (str_lt s1 s2)
  | _, _ => Raise (PyException "TypeError")
  end.

Fixpoint min_from (cur : whois_date) (l : list whois_date) : result whois_date :=
  match l with
  | [] => Ret cur
  | x :: l' =>
      match date_lt x cur with
      | Ret true => min_from x l'
      | Ret false => min_from cur l'
      | Raise e => Raise e
      end
  end.

(** [min(l)] *)
Definition py_min (l : list whois_date) : result whois_date :=
  match l with
  | [] => Raise (PyException "ValueError")
  | x :: l' => min_from x l'
  end.

(** [timedelta.days] of a difference of instants in microseconds *)
Definition days (delta : Z) : Z := delta / 86400000000.

(** [Response.raise_for_status]: [HTTPError] on a 4xx or 5xx status *)
Definition raise_for_status (r : Response) : result unit :=
  if (400 <=? status_code r) && (status_code r <? 600)
  then Raise (RequestException HTTPError)
  else Ret tt.

(** Outcome of one pass through a loop body: fall through to the next
    iteration ([continue] or the end of the body) or [return b]. *)
Inductive ctl : Type :=
| Next
| Return (b : bool).

(** ** The methods of [FeatureExtractor] *)

Section Extractor.

Context {World : Type} `{!Collaborators World}.

(** A run: the object, the world of the collaborators, and the calls
    made on them so far (oldest first; ghost state, never read). *)
Record Run : Type := {
  self : FeatureExtractor;
  world : World;
  calls : list Call
}.

(** A method: it changes the run and returns or raises. *)
Definition M (A : Type) : Type := Run -> result A * Run.

Definition ret {A} (a : A) : M A := fun r => (Ret a, r).
Definition raise {A} (e : exn) : M A := fun r => (Raise e, r).
Definition bind {A B} (m : M A) (k : A -> M B) : M B :=
  fun r => match m r with
           | (Ret a, r') => k a r'
           | (Raise e, r') => (Raise e, r')
           end.
(** [try: body / except ... as e: handler e]; a handler that does not
    catch [e] raises it again. *)
Definition try_except {A} (body : M A) (handler : exn -> M A) : M A :=
  fun r => match body r with
           | (Ret a, r') => (Ret a, r')
           | (Raise e, r') => handler e r'
           end.
Definition lift {A} (x : result A) : M A := fun r => (x, r).

Notation "x <- c ;; k" := (bind c (fun x => k))
  (at level 20, c at level 99, k at level 200, only parsing).
Notation "c ;;; k" := (bind c (fun _ => k))
  (at level 100, k at level 200, only parsing, right associativity).

Definition get {A} (f : FeatureExtractor -> A) : M A := fun r => (Ret (f (self r)), r).
Definition update (f : FeatureExtractor -> FeatureExtractor) : M unit :=
  fun r => (Ret tt, {| self := f (self r); world := world r; calls := calls r |}).
(** [self.features[k] = v] *)
Definition set_feature (k : string) (v : Z) : M unit :=
  update (fun o => set_features (<[k := v]> (features o)) o).

(** Calls on the collaborators *)
Definition do_head (rq : Request) : M (option exn) :=
  fun r => let '(x, w) := session_head rq (world r) in
           (Ret x, {| self := self r; world := w; calls := calls r ++ [CallHead rq] |}).
Definition do_get (rq : Request) : M Response :=
  fun r => let '(x, w) := session_get rq (world r) in
           (x, {| self := self r; world := w; calls := calls r ++ [CallGet rq x] |}).
Definition do_whois (u : str) : M WhoisEntry :=
  fun r => let '(x, w) := whois_whois u (world r) in
           (x, {| self := self r; world := w; calls := calls r ++ [CallWhois u] |}).
Definition do_tls (hostname : str) : M unit :=
  fun r => let '(x, w) := tls_handshake hostname (world r) in
           (x, {| self := self r; world := w; calls := calls r ++ [CallTls hostname] |}).
Definition do_now : M Z :=
  fun r => let '(t, w) := datetime_now (world r) in
           (Ret t, {| self := self r; world := w; calls := calls r |}).

(** [for x in l: body x], where the body may [return] *)
Fixpoint for_each {A} (body : A -> M ctl) (l : list A) : M ctl :=
  match l with
  | [] => ret Next
  | x :: l' =>
      c <- body x ;;
      match c with
      | Next => for_each body l'
      | Return b => ret (Return b)
      end
  end.

(** *** [__init__] *)
Definition init (raw : str) : FeatureExtractor :=
  let u := normalize_url raw in
  let p := urlparse u in
  {| url := u; parsed_url := p; domain := netloc p;
     html_content := None; soup := None; response := None; features := ∅ |}.

(** a new extractor in a world, before any call *)
Definition new_run (raw : str) (w : World) : Run :=
  {| self := init raw; world := w; calls := [] |}.

(** *** [fetch_website] *)

(** [schemes_to_try], lines 41-45 *)
Definition schemes_to_try (p : ParsedURL) : list str :=
  [scheme p] ++
  (if str_eqb (scheme p) "http" then ["https"%str]
   else if str_eqb (scheme p) "https" then ["http"%str]
   else []).

(** The URL of an attempt, lines 52-54 *)
Definition attempt_url (p : ParsedURL) (scheme : str) : str :=
  let u := scheme +++ "://" +++ netloc p +++ path p in
  if Py.truthy (query p) then u +++ "?" +++ query p else u.

(** Lines 58-92, the body of the inner [try].  The outcome of the HEAD
    request is logged and dropped. *)
Definition request (u : str) (verify_ssl : bool) : M ctl :=
  let rq := {| req_url := u; req_verify := verify_ssl |} in
  do_head rq ;;;
  resp <- do_get rq ;;
  update (set_response (Some resp)) ;;;
  lift (raise_for_status resp) ;;;
  update (set_url u) ;;;
  update (set_html_content (Some (text resp))) ;;;
  sp <- lift (BeautifulSoup (text resp)) ;;
  update (set_soup (Some sp)) ;;;
  ret (Return true).

(** Lines 51-106, the body of the loop over [attempt] *)
Definition attempt_body (max_retries : Z) (scheme : str) (attempt : Z) : M ctl :=
  try_except
    (p <- get parsed_url ;;
     let u := attempt_url p scheme in
     let verify_ssl := attempt =? 0 in
     try_except (request u verify_ssl)
       (fun e =>
          if is_SSLError_or_ProxyError e then
            if (attempt <? max_retries) && verify_ssl then ret Next   (* continue *)
            else raise e                                              (* raise *)
          else raise e))
    (fun e =>
       if is_RequestException e then ret Next     (* print when the last attempt; continue *)
       else ret Next).                            (* except Exception: print; continue *)

Definition fetch_website (max_retries : Z) : M bool :=
  p <- get parsed_url ;;
  c <- for_each
         (fun scheme => for_each (attempt_body max_retries scheme)
                                 (Py.range (max_retries + 1)))
         (schemes_to_try p) ;;
  match c with
  | Return b => ret b
  | Next => ret false          (* print; return False *)
  end.

(** *** [_extract_url_features] *)

(** truth value of [parsed_url.port]: an [int] other than 0 *)
Definition port_truthy (p : option Z) : bool :=
  match p with
  | Some n => negb (n =? 0)
  | None => false
  end.

Definition _extract_url_features : M unit :=
  u <- get url ;;
  p <- get parsed_url ;;
  d <- get domain ;;
  set_feature "url_length" (Py.len u) ;;;
  set_feature "having_ip_address" (if Re.match_ip (netloc p) then -1 else 1) ;;;
  set_feature "shortining_service"
    (if existsb (fun shortener => Py.contains shortener u) shorteners then 1 else -1) ;;;
  set_feature "having_at_symbol" (if Py.contains "@" u then 1 else -1) ;;;
  set_feature "double_slash_redirecting"
    (if Py.contains "//" (Py.slice_from 7 u) then 1 else -1) ;;;
  let domain_parts := Py.split ord_dot d in
  set_feature "prefix_suffix" (if Py.contains "-" d then 1 else -1) ;;;
  set_feature "having_sub_domain"
    (if Z.of_nat (length domain_parts) >? 2
     then Z.of_nat (length domain_parts) - 2 else -1) ;;;
  pt <- lift (port p) ;;
  set_feature "port" (if port_truthy pt then 1 else -1) ;;;
  set_feature "https_token" (if str_eqb (scheme p) "https" then 1 else -1).

(** *** [_extract_html_features], on [self.soup] *)

Definition _extract_html_features (sp : Soup) : M unit :=
  let forms := find_all_form sp in
  set_feature "sfh" (match forms with [] => -1 | _ => 1 end) ;;;
  set_feature "submitting_to_email"
    (if existsb (fun form => Py.contains "mailto:" form) forms then 1 else -1) ;;;
  set_feature "iframe" (if find_iframe sp then 1 else -1) ;;;
  let scripts := find_all_script sp in
  let script_text := Py.join " " (List.filter Py.truthy scripts) in
  set_feature "popupwindow" (if Py.contains "window.open" script_text then 1 else -1) ;;;
  set_feature "on_mouseover" (if Py.contains "onmouseover=" (str_soup sp) then 1 else -1) ;;;
  set_feature "rightclick" (if Py.contains "event.button==2" script_text then 1 else -1) ;;;
  let anchors := find_all_a_href sp in
  set_feature "url_of_anchor"
    (if existsb (fun href => Py.contains "http" href) anchors then 1 else -1) ;;;
  set_feature "links_in_tags" (Z.of_nat (length anchors)) ;;;
  set_feature "favicon" (if find_link_icon sp then 1 else -1).

(** *** [_perform_additional_lookups] *)

(** [self.features.update({...})], lines 163-175 *)
Definition network_defaults (f : gmap string Z) : gmap string Z :=
  foldl (fun m k => <[k := 0]> m) f network_keys.

(** Lines 179-184 *)
Definition domain_age_features (w : WhoisEntry) : M unit :=
  if creation_date_truthy (creation_date w) then
    cd <- match creation_date w with
          | DateList l => lift (py_min l)
          | OneDate d => ret d
          | NoDate => ret (DateText "")        (* not reached: [None] is falsy *)
          end ;;
    match cd with
    | DateTime t aware =>
        now <- do_now ;;
        delta <- (if aware then raise (PyException "TypeError") else ret (now - t)) ;;
        let domain_age := days delta in
        set_feature "age_of_domain" (if domain_age >? 365 then 1 else -1) ;;;
        set_feature "domain_registration_length" 1
    | DateText _ => ret tt
    end
  else ret tt.

(** truth value of [domain.name_servers] *)
Definition name_servers_truthy (ns : option (list str)) : bool :=
  match ns with
  | Some (_ :: _) => true
  | _ => false
  end.

(** Lines 178-192, the body of the first [try] *)
Definition whois_dns_tls : M unit :=
  u <- get url ;;
  w <- do_whois u ;;
  domain_age_features w ;;;
  set_feature "dnsrecord" (if name_servers_truthy (name_servers w) then 1 else -1) ;;;
  p <- get parsed_url ;;
  let hostname := hd ""%str (Py.split ord_colon (netloc p)) in
  do_tls hostname ;;;
  set_feature "sslfinal_state" 1.

(** Lines 197-198, the body of the second [try] *)
Definition redirect_check : M unit :=
  r <- get response ;;
  match r with
  | Some resp =>
      set_feature "redirect" (if Z.of_nat (length (history resp)) >? 0 then 1 else -1)
  | None => ret tt
  end.

Definition _perform_additional_lookups : M unit :=
  update (fun o => set_features (network_defaults (features o)) o) ;;;
  try_except whois_dns_tls
    (fun _ => set_feature "sslfinal_state" (-1)) ;;;    (* bare except *)
  try_except redirect_check
    (fun _ => ret tt).                                  (* except Exception: print *)

(** *** [extract_all_features] *)

Definition extract_all_features : M (gmap string Z) :=
  _extract_url_features ;;;
  sp <- get soup ;;
  match sp with
  | Some s => _extract_html_features s
  | None => ret tt
  end ;;;
  _perform_additional_lookups ;;;
  get features.

End Extractor.

Arguments Run World : clear implicits.
Arguments M World A : clear implicits.

(** ** Reading the calls of a run *)

(** the GET requests among the calls, with what each returned or raised *)
Definition get_calls (cs : list Call) : list (Request * result Response) :=
  omap (fun c => match c with CallGet rq x => Some (rq, x) | _ => None end) cs.

Definition get_requests (cs : list Call) : list Request :=
  fst <$> get_calls cs.

(** the calls made between two states of a run *)
Definition new_calls {World} (r r' : Run World) : list Call :=
  drop (length (calls r)) (calls r').

(** The HTTP exchange of a GET failed: the client raised, or the response
    has an error status. *)
Definition http_failed (g : Request * result Response) : bool :=
  match snd g with
  | Raise _ => true
  | Ret resp => match raise_for_status resp with Raise _ => true | Ret _ => false end
  end.

(** The GET failed with [SSLError] or [ProxyError]. *)
Definition tls_failure (x : result Response) : bool :=
  match x with
  | Raise e => is_SSLError_or_ProxyError e
  | Ret _ => false
  end.

(** The requests [fetch_website] sends when none succeeds: for each scheme
    to try, attempts [0 .. max_retries], the certificate verified in
    attempt 0 only. *)
Definition schedule (p : ParsedURL) (max_retries : Z) : list Request :=
  scheme ← schemes_to_try p;
  attempt ← Py.range (max_retries + 1);
  [ {| req_url := attempt_url p scheme; req_verify := (attempt =? 0) |} ].

(** The retry policy as the specification words it, on the GETs of a run in
    order: the first attempt of a scheme verifies the certificate, and a
    later attempt of the same scheme goes without verification only if the
    attempt before it failed with a TLS or proxy error.  Consecutive GETs
    belong to the same scheme when they have the same URL. *)
Fixpoint relaxed_only_after_tls_error
    (prev : option (Request * result Response))
    (gets : list (Request * result Response)) : bool :=
  match gets with
  | [] => true
  | (rq, x) :: rest =>
      match prev with
      | Some (rq0, x0) =>
          if str_eqb (req_url rq0) (req_url rq)
          then req_verify rq || tls_failure x0
          else req_verify rq
      | None => req_verify rq
      end
      && relaxed_only_after_tls_error (Some (rq, x)) rest
  end.

(** ** Vocabulary of the proofs *)

(** [preserves R m]: the object after [m] is related by [R] to the object
    before it, whether [m] returns or raises. *)
Definition preserves {World} (R : FeatureExtractor -> FeatureExtractor -> Prop)
    {A} (m : M World A) : Prop :=
  forall r, R (self r) (self (snd (m r))).

(** [writes K o o']: [o'] is [o] with entries of [features] written for keys
    of [K] only; no entry is removed and no other field changes. *)
Definition writes (K : list string) (o o' : FeatureExtractor) : Prop :=
  url o' = url o /\ parsed_url o' = parsed_url o /\ domain o' = domain o
  /\ html_content o' = html_content o /\ soup o' = soup o
  /\ response o' = response o
  /\ (forall k, k ∉ K -> features o' !! k = features o !! k)
  /\ (forall k, is_Some (features o !! k) -> is_Some (features o' !! k)).

(** What a loop of [fetch_website] over the requests [reqs] has done when
    it ends with [res], from [r] to [r']: it only called the
    collaborators and, on [return True], stored the page. *)
Definition fetch_post {World} (p : ParsedURL) (reqs : list Request)
    (r : Run World) (res : result ctl) (r' : Run World) : Prop :=
  exists new,
    calls r' = calls r ++ new
    /\ parsed_url (self r') = p
    /\ domain (self r') = domain (self r)
    /\ features (self r') = features (self r)
    /\ match res with
       | Ret Next =>
           get_requests new = reqs
           /\ soup (self r') = soup (self r)
           /\ (forallb http_failed (get_calls new) = true ->
               html_content (self r') = html_content (self r)
               /\ url (self r') = url (self r))
       | Ret (Return b) =>
           b = true
           /\ get_requests new `prefix_of` reqs
           /\ (exists pre rq resp,
                 get_calls new = pre ++ [(rq, Ret resp)]
                 /\ raise_for_status resp = Ret tt
                 /\ url (self r') = req_url rq
                 /\ html_content (self r') = Some (text resp))
           /\ is_Some (soup (self r'))
       | Raise _ => False
       end.

(** ** Concrete worlds for the examples *)

(** [urlparse] on the URLs of the examples; any other string is taken as a
    path, as [urlparse] takes a string without scheme and authority. *)
Definition parse_example (u : str) : ParsedURL :=
  if str_eqb u "http://example.com" then
    {| scheme := "http"; netloc := "example.com"; path := ""; query := "";
       port := Ret None |}
  else if str_eqb u "https://a.b.example.com:8443/login?next=/" then
    {| scheme := "https"; netloc := "a.b.example.com:8443"; path := "/login";
       query := "next=/"; port := Ret (Some 8443) |}
  else
    {| scheme := ""; netloc := ""; path := u; query := ""; port := Ret None |}.

(** *** Nothing is reachable.

    Every HTTP request times out, WHOIS and the TLS handshake fail, the
    clock stands at 0. *)

Module Offline.

#[global] Instance collaborators : Collaborators unit := {|
  urlparse := parse_example;
  session_head := fun _ w => (Some (RequestException Timeout), w);
  session_get := fun _ w => (Raise (RequestException Timeout), w);
  BeautifulSoup := fun _ => Raise (PyException "ParserRejectedMarkup");
  whois_whois := fun _ w => (Raise (PyException "PywhoisError"), w);
  tls_handshake := fun _ w => (Raise (PyException "OSError"), w);
  datetime_now := fun w => (0, w)
|}.

(** the extractor made for the input [example.com] *)
Definition start : Run unit := new_run "example.com" tt.

(** the same extractor with an entry left in [features] and a call made *)
Definition marked : Run unit :=
  {| self := set_features {[ "url_length" := 99 ]} (self start);
     world := tt; calls := [CallWhois "http://example.com"] |}.

End Offline.

(** *** The site answers once the certificate is not verified.

    The world counts the GET requests made.  The first GET fails with
    [SSLError]; every later one answers 200 with a page that has one form
    and no iframe.  WHOIS knows two creation dates and a name server, and
    the TLS handshake succeeds. *)

Module Online.

Definition page : str := "<form action='/login'></form>".

Definition document : Soup :=
  {| find_all_form := ["<form action='/login'></form>"%str];
     find_iframe := false;
     find_all_script := [];
     str_soup := page;
     find_all_a_href := [];
     find_link_icon := false |}.

Definition record : WhoisEntry :=
  {| creation_date :=
       DateList [DateTime 1100000000000000 false; DateTime 1000000000000000 false];
     name_servers := Some ["ns1.example.com"%str] |}.

#[global] Instance collaborators : Collaborators nat := {|
  urlparse := parse_example;
  session_head := fun _ n => (None, n);
  session_get := fun _ n =>
    match n with
    | O => (Raise (RequestException SSLError), S n)
    | S _ => (Ret {| status_code := 200; text := page; history := [] |}, S n)
    end;
  BeautifulSoup := fun _ => Ret document;
  whois_whois := fun _ n => (Ret record, n);
  tls_handshake := fun _ n => (Ret tt, n);
  datetime_now := fun n => (1700000000000000, n)
|}.

Definition start : Run nat := new_run "example.com" O.

End Online.

(** *** The site answers, and the parser rejects the page.

    Every GET answers 200 with a page on which [BeautifulSoup] raises:
    [html.parser] does not know the marked section of the page. *)

Module Rejected.

Definition page : str := "<![x]>".

#[global] Instance collaborators : Collaborators bool := {|
  urlparse := parse_example;
  session_head := fun _ w => (None, w);
  session_get := fun _ w =>
    (Ret {| status_code := 200; text := page; history := [] |}, w);
  BeautifulSoup := fun _ => Raise (PyException "ParserRejectedMarkup");
  whois_whois := fun _ w => (Raise (PyException "PywhoisError"), w);
  tls_handshake := fun _ w => (Raise (PyException "OSError"), w);
  datetime_now := fun w => (0, w)
|}.

Definition start : Run bool := new_run "example.com" true.

End Rejected.

(** ** More vocabulary for the fetcher *)

(** The calls of a sequence of attempts: each GET comes right after a HEAD
    for the same request. *)
Definition head_get_pairs (gets : list (Request * result Response)) : list Call :=
  gets ≫= (fun g => [CallHead (fst g); CallGet (fst g) (snd g)]).

(** The parser raised on the text of a GET that had a success status. *)
Definition parser_rejected {World} `{!Collaborators World}
    (g : Request * result Response) : bool :=
  match snd g with
  | Ret resp =>
      match raise_for_status resp, BeautifulSoup (text resp) with
      | Ret _, Raise _ => true
      | _, _ => false
      end
  | Raise _ => false
  end.

(** The attempt of a GET did not reach [return True]. *)
Definition attempt_failed {World} `{!Collaborators World}
    (g : Request * result Response) : bool :=
  http_failed g || parser_rejected g.

(** The object holds the page of the response [resp] to the request [rq]. *)
Definition stored {World} `{!Collaborators World}
    (rq : Request) (resp : Response) (o : FeatureExtractor) : Prop :=
  url o = req_url rq
  /\ html_content o = Some (text resp)
  /\ response o = Some resp
  /\ exists sp, BeautifulSoup (text resp) = Ret sp /\ soup o = Some sp.

(** What a loop of [fetch_website] has called, and how it ended. *)
Definition fetch_trace {World} `{!Collaborators World}
    (r : Run World) (res : result ctl) (r' : Run World) : Prop :=
  exists gets,
    calls r' = calls r ++ head_get_pairs gets
    /\ match res with
       | Ret Next => forallb attempt_failed gets = true
       | Ret (Return b) =>
           b = true
           /\ exists pre rq resp,
                gets = pre ++ [(rq, Ret resp)]
                /\ forallb attempt_failed pre = true
                /\ raise_for_status resp = Ret tt
                /\ stored rq resp (self r')
       | Raise _ => False
       end.

(** What lines 88-89 store of a GET: its request and its response when the
    response has a success status, nothing otherwise. *)
Definition fetched (g : Request * result Response) : option (Request * Response) :=
  match snd g with
  | Ret resp =>
      match raise_for_status resp with
      | Ret _ => Some (fst g, resp)
      | Raise _ => None
      end
  | Raise _ => None
  end.

(** The last GET of [gets] that had a success status, if any. *)
Definition last_success (gets : list (Request * result Response))
    : option (Request * Response) :=
  last (omap fetched gets).

(** From [r] to [r'], [url] and [html_content] were assigned from the last
    GET that had a success status, and not at all when there is none. *)
Definition keeps_last_success {World} (r r' : Run World) : Prop :=
  exists gets,
    calls r' = calls r ++ head_get_pairs gets
    /\ html_content (self r')
       = match last_success gets with
         | Some (_, resp) => Some (text resp)
         | None => html_content (self r)
         end
    /\ url (self r')
       = match last_success gets with
         | Some (rq, _) => req_url rq
         | None => url (self r)
         end.

(** The offline world, except that HEAD requests are answered. *)
Definition offline_head_answered : Collaborators unit := {|
  urlparse := parse_example;
  session_head := fun _ w => (None, w);
  session_get := fun _ w => (Raise (RequestException Timeout), w);
  BeautifulSoup := fun _ => Raise (PyException "ParserRejectedMarkup");
  whois_whois := fun _ w => (Raise (PyException "PywhoisError"), w);
  tls_handshake := fun _ w => (Raise (PyException "OSError"), w);
  datetime_now := fun w => (0, w)
|}.

(** ** More Python built-ins on strings *)

Module PyStr.

(** [s.count(c)] for a one-character [c] *)
Fixpoint count (c : N) (s : str) : nat :=
  match s with
  | EmptyStr => O
  | Str a s' => if N.eqb a c then S (count c s') else count c s'
  end.

(** The white space of Unicode, as ranges of code points, first and
    last: the characters on which [isspace] is true. *)
Definition space_ranges : list (N * N) :=
  [ (9, 13); (28, 32); (133, 133); (160, 160); (5760, 5760); (8192, 8202);
    (8232, 8233); (8239, 8239); (8287, 8287); (12288, 12288) ]%N.

(** [c.isspace()] *)
Definition is_space (c : N) : bool :=
  existsb (fun range => (fst range <=? c)%N && (c <=? snd range)%N) space_ranges.

(** [s.lstrip()] *)
Fixpoint lstrip (s : str) : str :=
  match s with
  | EmptyStr => EmptyStr
  | Str c s' => if is_space c then lstrip s' else s
  end.

(** [s.rstrip()] *)
Fixpoint rstrip (s : str) : str :=
  match s with
  | EmptyStr => EmptyStr
  | Str c s' =>
      match rstrip s' with
      | EmptyStr => if is_space c then EmptyStr else Str c EmptyStr
      | t => Str c t
      end
  end.

(** [s.strip()] *)
Definition strip (s : str) : str := rstrip (lstrip s).

(** every character is white space *)
Fixpoint all_space (s : str) : bool :=
  match s with
  | EmptyStr => true
  | Str c s' => is_space c && all_space s'
  end.

End PyStr.

(** An extractor whose URL has a port that is not a number: reading
    [parsed_url.port] raises [ValueError]. *)
Definition malformed_port_run : Run unit :=
  {| self :=
       {| url := "http://example.com:http";
          parsed_url :=
            {| scheme := "http"; netloc := "example.com:http"; path := "";
               query := ""; port := Raise (PyException "ValueError") |};
          domain := "example.com:http";
          html_content := None; soup := None; response := None; features := ∅ |};
     world := tt; calls := [] |}.

(** ** The keys of the network deriver, by what becomes of them *)

(** the keys a lookup may overwrite *)
Definition looked_up_keys : list string :=
  [ "age_of_domain"; "domain_registration_length"; "dnsrecord"; "sslfinal_state";
    "redirect" ].

(** the keys no lookup writes *)
Definition reserved_keys : list string :=
  [ "web_traffic"; "page_rank"; "google_index"; "links_pointing_to_page";
    "statistical_report"; "abnormal_url" ].

(** The date the age is computed from, lines 179-180: the date of the
    record, the least of its dates when it has a list. *)
Definition effective_creation_date (c : creation_date_t) : result whois_date :=
  match c with
  | DateList l => py_min l
  | OneDate d => Ret d
  | NoDate => Ret (DateText "")
  end.

(** The online world with a WHOIS record that has no creation date and a
    TLS handshake that fails. *)
Definition undated : Collaborators nat := {|
  urlparse := parse_example;
  session_head := fun _ n => (None, n);
  session_get := fun _ n =>
    (Ret {| status_code := 200; text := Online.page; history := [] |}, S n);
  BeautifulSoup := fun _ => Ret Online.document;
  whois_whois := fun _ n =>
    (Ret {| creation_date := NoDate; name_servers := Some ["ns1.example.com"%str] |}, n);
  tls_handshake := fun _ n => (Raise (PyException "OSError"), n);
  datetime_now := fun n => (1700000000000000, n)
|}.

(** The online world with a WHOIS record whose creation date carries a
    time zone. *)
Definition zoned : Collaborators nat := {|
  urlparse := parse_example;
  session_head := fun _ n => (None, n);
  session_get := fun _ n =>
    (Ret {| status_code := 200; text := Online.page; history := [] |}, S n);
  BeautifulSoup := fun _ => Ret Online.document;
  whois_whois := fun _ n =>
    (Ret {| creation_date := OneDate (DateTime 1000000000000000 true);
            name_servers := Some ["ns1.example.com"%str] |}, n);
  tls_handshake := fun _ n => (Ret tt, n);
  datetime_now := fun n => (1700000000000000, n)
|}.

(** the first [try] of [_perform_additional_lookups] with its handler *)
Definition whois_block {World} `{!Collaborators World} : M World unit :=
  try_except whois_dns_tls (fun _ => set_feature "sslfinal_state" (-1)).

(** the second [try] with its handler *)
Definition redirect_block {World} `{!Collaborators World} : M World unit :=
  try_except redirect_check (fun _ => ret tt).

(** 366 days in microseconds *)
Definition days_366 : Z := 366 * 86400000000.

(** The online world with a WHOIS record that has one creation date. *)
Definition dated : Collaborators nat := {|
  urlparse := parse_example;
  session_head := fun _ n => (None, n);
  session_get := fun _ n =>
    (Ret {| status_code := 200; text := Online.page; history := [] |}, S n);
  BeautifulSoup := fun _ => Ret Online.document;
  whois_whois := fun _ n =>
    (Ret {| creation_date := OneDate (DateTime 1690000000000000 false);
            name_servers := None |}, n);
  tls_handshake := fun _ n => (Ret tt, n);
  datetime_now := fun n => (1700000000000000, n)
|}.

(** the keys some deriver writes: every name of the feature order but
    [request_url] *)
Definition derived_keys : list string :=
  lexical_keys ++ structural_keys ++ network_keys.

(** ** The endpoint of [app.py] *)

(** What [app.py] adds to the collaborators: the models loaded at import
    and the failure of [urlparse]. *)
Class App (World : Type) : Type := {
  (** the keys of [models], in the order of [models.items()] *)
  models : list string;
  (** [int(model.predict(X)[0])] for the model of that name *)
  model_predict : string -> list Z -> World -> result Z * World;
  (** [Some e] when [urlparse(url)] raises [e], so that
      [FeatureExtractor(url)] raises it; [urlparse] gives the parse
      otherwise *)
  urlparse_error : str -> option exn
}.

(** What [analyze] answers *)
Inductive Reply : Type :=
| UrlRequired                   (* 400: URL is required *)
| CouldNotFetch                 (* 400: Could not fetch website content... *)
| FetchError (e : exn)          (* 500: An unexpected error occurred while fetching the website: e *)
| AnalysisError (e : exn)       (* 500: Error during analysis: e *)
| UnexpectedError               (* 500: An unexpected error occurred. Please check the server logs... *)
| Success (url : str) (predictions features : gmap string Z).   (* 200 *)

(** the HTTP status of the answer *)
Definition status (reply : Reply) : Z :=
  match reply with
  | UrlRequired | CouldNotFetch => 400
  | FetchError _ | AnalysisError _ | UnexpectedError => 500
  | Success _ _ _ => 200
  end.

Section Endpoint.

Context {World : Type} `{!Collaborators World} `{!App World}.

Notation "x <- c ;; k" := (bind c (fun x => k))
  (at level 20, c at level 99, k at level 200, only parsing).

Definition do_predict (model_name : string) (X : list Z) : M World Z :=
  fun r => let '(x, w) := model_predict model_name X (world r) in
           (x, {| self := self r; world := w; calls := calls r |}).

(** The loop of [get_predictions] over [models.items()] *)
Fixpoint predict_each (X : list Z) (names : list string)
    (predictions : gmap string Z) : M World (gmap string Z) :=
  match names with
  | [] => ret predictions
  | model_name :: rest =>
      pred <- try_except (do_predict model_name X)
                (fun _ => ret (-1)) ;;                      (* except Exception *)
      predict_each X rest (<[model_name := pred]> predictions)
  end.

(** [get_predictions(feature_vector, url)] *)
Definition get_predictions (feature_vector : list Z) : M World (gmap string Z) :=
  predict_each feature_vector models ∅.

(** [analyze], lines 209-247: what follows the making of the extractor *)
Definition analyze_extractor (url : str) : M World Reply :=
  fetched <- try_except (b <- fetch_website 2 ;; ret (inl b))
               (fun e => ret (inr e)) ;;
  match fetched with
  | inr e => ret (FetchError e)
  | inl false => ret CouldNotFetch
  | inl true =>
      try_except
        (fs <- extract_all_features ;;
         feature_vector <- get (fun o => get_feature_vector (features o)) ;;
         predictions <- get_predictions feature_vector ;;
         ret (Success url predictions fs))
        (fun e => ret (AnalysisError e))
  end.

(** [request.form.get('url', '').strip()], on the value of the form field
    ([None] when the field is missing) *)
Definition submitted_url (form_url : option str) : str :=
  PyStr.strip (default ""%str form_url).

(** [analyze]; it gives the answer, the world it leaves and the calls it
    made *)
Definition analyze (form_url : option str) (w : World)
    : result Reply * World * list Call :=
  let url := submitted_url form_url in
  if negb (Py.truthy url) then (Ret UrlRequired, w, [])
  else
    match urlparse_error (normalize_url url) with
    | Some e => (Ret UnexpectedError, w, [])
    | None =>
        let '(x, r) := try_except (analyze_extractor url)
                         (fun _ => ret UnexpectedError) (new_run url w) in
        (x, world r, calls r)
    end.

End Endpoint.

(** The online world with two models, of which the second fails. *)
Definition two_models : App nat := {|
  models := ["random_forest"; "xgboost"];
  model_predict := fun name _ n =>
    if String.eqb name "random_forest" then (Ret 1, n)
    else (Raise (PyException "ValueError"), n);
  urlparse_error := fun _ => None
|}.

(** ** [WebsiteAnalyzer] of [app.py]

    A [WebsiteAnalyzer] has the fields [url], [html_content], [soup],
    [response] and [features] and no others.  It is held in a
    [FeatureExtractor] record whose [parsed_url] and [domain] its methods
    neither read nor write: they call [urlparse(self.url)] where they need
    the parse.  [requests.get] is the GET of the HTTP client with
    certificate verification. *)

Module WA.

Section Methods.

Context {World : Type} `{!Collaborators World}.

Notation "x <- c ;; k" := (bind c (fun x => k))
  (at level 20, c at level 99, k at level 200, only parsing).
Notation "c ;;; k" := (bind c (fun _ => k))
  (at level 100, k at level 200, only parsing, right associativity).

(** [WebsiteAnalyzer.normalize_url] *)
Definition normalize_url (url : str) : str :=
  if negb (Py.startswith_any url ["http://"; "https://"]%str)
  then "http://" +++ url
  else url.

(** [WebsiteAnalyzer.fetch_website] *)
Definition fetch_website : M World bool :=
  try_except
    (u <- get url ;;
     resp <- do_get {| req_url := u; req_verify := true |} ;;
     update (set_response (Some resp)) ;;;
     lift (raise_for_status resp) ;;;
     update (set_html_content (Some (text resp))) ;;;
     sp <- lift (BeautifulSoup (text resp)) ;;
     update (set_soup (Some sp)) ;;;
     ret true)
    (fun e =>
       if is_RequestException e then ret false      (* print; return False *)
       else raise e).

(** the services of [extract_url_features] *)
Definition services : list str :=
  [ "bit.ly"; "tinyurl"; "goo.gl"; "t.co"; "ow.ly" ]%str.

(** [WebsiteAnalyzer.extract_url_features] *)
Definition extract_url_features : M World unit :=
  u <- get url ;;
  let parsed_url := urlparse u in
  set_feature "url_length" (Py.len u) ;;;
  set_feature "having_ip_address" (if Re.match_ip (netloc parsed_url) then -1 else 1) ;;;
  set_feature "shortining_service"
    (if existsb (fun service => Py.contains service u) services then 1 else -1) ;;;
  set_feature "having_at_symbol" (if Py.contains "@" u then 1 else -1) ;;;
  set_feature "double_slash_redirecting"
    (if Py.contains "//" (Py.slice_from 7 u) then 1 else -1) ;;;
  set_feature "prefix_suffix" (if Py.contains "-" (netloc parsed_url) then 1 else -1) ;;;
  let domain_parts := Py.split ord_dot (netloc parsed_url) in
  set_feature "having_sub_domain"
    (if Z.of_nat (length domain_parts) >? 2
     then Z.of_nat (length domain_parts) - 2 else -1) ;;;
  pt <- lift (port parsed_url) ;;
  set_feature "port" (if port_truthy pt then 1 else -1) ;;;
  set_feature "https_token" (if str_eqb (scheme parsed_url) "https" then 1 else -1).

(** [WebsiteAnalyzer.extract_html_features]: statement for statement
    [FeatureExtractor._extract_html_features] *)
Definition extract_html_features (sp : Soup) : M World unit :=
  _extract_html_features sp.

(** Lines 128-135: the age features.  Without the type test of
    [FeatureExtractor], a date that is not a naive [datetime] makes the
    subtraction raise [TypeError]. *)
Definition domain_age_features (w : WhoisEntry) : M World unit :=
  if creation_date_truthy (creation_date w) then
    cd <- match creation_date w with
          | DateList l => lift (py_min l)
          | OneDate d => ret d
          | NoDate => ret (DateText "")        (* not reached: [None] is falsy *)
          end ;;
    now <- do_now ;;
    delta <- match cd with
             | DateTime t false => ret (now - t)
             | _ => raise (PyException "TypeError")
             end ;;
    let domain_age := days delta in
    set_feature "age_of_domain" (if domain_age >? 365 then 1 else -1) ;;;
    set_feature "domain_registration_length" 1
  else
    set_feature "age_of_domain" (-1) ;;;
    set_feature "domain_registration_length" (-1).

(** Lines 139-145: the TLS check, with its own bare [except] *)
Definition tls_check : M World unit :=
  try_except
    (u <- get url ;;
     do_tls (netloc (urlparse u)) ;;;
     set_feature "sslfinal_state" 1)
    (fun _ => set_feature "sslfinal_state" (-1)).

(** Line 147: [len(self.response.history)] raises [AttributeError] when
    [self.response] is [None]. *)
Definition redirect_feature : M World unit :=
  r <- get response ;;
  match r with
  | Some resp =>
      set_feature "redirect" (if Z.of_nat (length (history resp)) >? 0 then 1 else -1)
  | None => raise (PyException "AttributeError")
  end.

(** Lines 151-157, the handler *)
Definition reset_lookups (f : gmap string Z) : gmap string Z :=
  foldl (fun m k => <[k := 0]> m) f
    [ "age_of_domain"; "domain_registration_length"; "dnsrecord"; "sslfinal_state";
      "redirect" ].

(** [WebsiteAnalyzer.perform_additional_lookups] *)
Definition perform_additional_lookups : M World unit :=
  try_except
    (u <- get url ;;
     w <- do_whois u ;;
     domain_age_features w ;;;
     set_feature "dnsrecord" (if name_servers_truthy (name_servers w) then 1 else -1) ;;;
     tls_check ;;;
     redirect_feature)
    (fun _ => update (fun o => set_features (reset_lookups (features o)) o)).

(** [WebsiteAnalyzer.extract_features] *)
Definition extract_features : M World (gmap string Z) :=
  extract_url_features ;;;
  sp <- get soup ;;
  match sp with
  | Some s => extract_html_features s
  | None => ret tt
  end ;;;
  perform_additional_lookups ;;;
  get features.

End Methods.

End WA.

(** * Properties *)

(** ** Strings *)

(** [ord] of the one-character literals of the source *)
Example code_points :
  ord "." = ord_dot /\ ord ":" = ord_colon /\ ord "010" = ord_newline
  /\ "."%str = Str ord_dot EmptyStr.
Proof. repeat split; reflexivity. Qed.

Lemma str_eqb_eq (a b : str) : str_eqb a b = true <-> a = b.
Proof.
  revert b. induction a as [|x a IH]; intros [|y b]; cbn [str_eqb]; try easy.
  rewrite andb_true_iff, N.eqb_eq, IH. split; [intros [-> ->]; reflexivity|].
  intros [= -> ->]. auto.
Qed.

(** ** The URL normalizer *)

Lemma startswith_spec (s p : str) :
  Py.startswith s p = true <-> exists t, s = p +++ t.
Proof.
  revert s. induction p as [|a p IH]; intros s; cbn [Py.startswith].
  - split; [exists s; reflexivity|reflexivity].
  - destruct s as [|b s].
    + split; [discriminate|]. intros [t Ht]. discriminate.
    + destruct (N.eqb a b) eqn:E.
      * apply N.eqb_eq in E as ->. rewrite IH. split.
        -- intros [t ->]. exists t. reflexivity.
        -- intros [t Ht]. exists t. simpl in Ht. now injection Ht.
      * split; [discriminate|]. intros [t Ht]. simpl in Ht.
        injection Ht as -> _. now rewrite N.eqb_refl in E.
Qed.

(** C5. For every raw string [url], [normalize_url] returns [url] unchanged
    when it starts with [http://] or [https://] and [http://] prepended to
    it otherwise; hence every normalized URL starts with [http://] or
    [https://]. *)
Theorem normalize_url_spec (url : str) :
  normalize_url url =
    (if Py.startswith url "http://" || Py.startswith url "https://"
     then url else "http://" +++ url)
  /\ (Py.startswith (normalize_url url) "http://"
      || Py.startswith (normalize_url url) "https://") = true
  /\ ((exists t, normalize_url url = "http://" +++ t)
      \/ (exists t, normalize_url url = "https://" +++ t)).
Proof.
  assert (H : normalize_url url =
                (if Py.startswith url "http://" || Py.startswith url "https://"
                 then url else "http://" +++ url)).
  { unfold normalize_url, Py.startswith_any. cbn [existsb].
    rewrite orb_false_r.
    now destruct (Py.startswith url "http://" || Py.startswith url "https://"). }
  assert (H' : (Py.startswith (normalize_url url) "http://"
                || Py.startswith (normalize_url url) "https://") = true).
  { rewrite H.
    destruct (Py.startswith url "http://" || Py.startswith url "https://") eqn:E;
      [exact E|reflexivity]. }
  split; [exact H|]. split; [exact H'|].
  apply orb_prop in H' as [H'|H']; apply startswith_spec in H'; auto.
Qed.

(** ** The assembler *)

Lemma get_feature_vector_lookup (features : gmap string Z) (i : nat) (name : string) :
  feature_order !! i = Some name ->
  get_feature_vector features !! i = Some (default 0 (features !! name)).
Proof.
  intros H. unfold get_feature_vector.
  rewrite list_lookup_fmap, H. reflexivity.
Qed.

Lemma slot_bound (features : gmap string Z) (k : string) (v : Z) :
  k ∈ feature_order -> features !! k = Some v ->
  exists i, feature_order !! i = Some k /\ get_feature_vector features !! i = Some v.
Proof.
  intros Hk Hv. apply list_elem_of_lookup in Hk as [i Hi]. exists i.
  split; [exact Hi|]. rewrite (get_feature_vector_lookup _ _ _ Hi), Hv. reflexivity.
Qed.

Lemma slot_absent (features : gmap string Z) (k : string) :
  k ∈ feature_order -> features !! k = None ->
  exists i, feature_order !! i = Some k /\ get_feature_vector features !! i = Some 0.
Proof.
  intros Hk Hv. apply list_elem_of_lookup in Hk as [i Hi]. exists i.
  split; [exact Hi|]. rewrite (get_feature_vector_lookup _ _ _ Hi), Hv. reflexivity.
Qed.

Lemma network_keys_in_order (k : string) : k ∈ network_keys -> k ∈ feature_order.
Proof.
  revert k. apply Forall_forall. unfold network_keys.
  repeat constructor; apply list_elem_of_In; cbn; tauto.
Qed.

Lemma structural_keys_in_order (k : string) : k ∈ structural_keys -> k ∈ feature_order.
Proof.
  revert k. apply Forall_forall. unfold structural_keys.
  repeat constructor; apply list_elem_of_In; cbn; tauto.
Qed.

(** C3. For every feature dictionary, [get_feature_vector] returns 30
    integers, one for each name of [feature_order] in order: the
    dictionary's value for the name, or 0 when the name is absent.  The
    empty dictionary gives thirty zeros.  The function is total: it is
    defined on every dictionary and has no failing case. *)
Theorem get_feature_vector_spec (features : gmap string Z) :
  length feature_order = 30%nat
  /\ length (get_feature_vector features) = 30%nat
  /\ Forall2 (fun name v => v = match features !! name with Some x => x | None => 0 end)
       feature_order (get_feature_vector features)
  /\ get_feature_vector ∅ = replicate 30 0.
Proof.
  split; [reflexivity|]. split.
  - unfold get_feature_vector. rewrite length_fmap. reflexivity.
  - split.
    + unfold get_feature_vector. apply Forall2_fmap_r, Forall_Forall2_diag.
      apply Forall_forall. intros name _. unfold compose.
      destruct (features !! name); reflexivity.
    + unfold get_feature_vector, feature_order. cbn [fmap list_fmap].
      rewrite !lookup_empty. reflexivity.
Qed.

Lemma fold_append_feature (features : gmap string Z) (l : list string) (acc : list Z) :
  fold_left (WebsiteAnalyzer.append_feature features) l acc =
  acc ++ ((fun feature => default 0 (features !! feature)) <$> l).
Proof.
  revert acc. induction l as [|k l IH]; intros acc; cbn [fold_left fmap list_fmap].
  - now rewrite app_nil_r.
  - rewrite IH. unfold WebsiteAnalyzer.append_feature.
    destruct (features !! k); cbn [default]; now rewrite <- app_assoc.
Qed.

(** C10. The feature order of [get_feature_vector], [FEATURE_NAMES] of
    [config.py] and the feature order of [WebsiteAnalyzer.get_features_array]
    are the same list, and for every feature dictionary the row built by
    [get_features_array] is the vector built by [get_feature_vector]. *)
Theorem feature_orders_agree (features : gmap string Z) :
  feature_order = FEATURE_NAMES
  /\ feature_order = WebsiteAnalyzer.feature_order
  /\ WebsiteAnalyzer.get_features_array features = [get_feature_vector features].
Proof.
  split; [reflexivity|]. split; [reflexivity|].
  unfold WebsiteAnalyzer.get_features_array.
  rewrite fold_append_feature. reflexivity.
Qed.

(** ** The regular expression *)

Module ReFacts.

Local Open Scope str_scope.
Import Re.

Lemma append_empty (s1 s2 : str) : s1 +++ s2 = "" -> s1 = "" /\ s2 = "".
Proof. destruct s1; cbn; [auto|discriminate]. Qed.

Lemma matches_nil_nullable r s : matches r s -> s = "" -> nullable r = true.
Proof.
  induction 1; intros E; cbn [nullable]; try discriminate; try reflexivity.
  - apply append_empty in E as [-> ->]. now rewrite IHmatches1, IHmatches2.
  - now rewrite IHmatches.
  - rewrite IHmatches by exact E. apply orb_true_r.
Qed.

Lemma nullable_matches r : nullable r = true -> matches r "".
Proof.
  induction r; cbn [nullable]; intros E; try discriminate.
  - constructor.
  - apply andb_prop in E as [E1 E2]. apply (MSeq _ _ "" ""); auto.
  - apply orb_prop in E as [E|E]; [apply MAltL|apply MAltR]; auto.
  - constructor.
Qed.

Lemma deriv_sound c r : forall s, matches (deriv c r) s -> matches r (Str c s).
Proof.
  induction r; cbn [deriv]; intros s H.
  - inversion H.
  - inversion H.
  - destruct (f c) eqn:E; inversion H; subst. now constructor.
  - destruct (nullable r1) eqn:N.
    + inversion H as [| |? ? ? ? | ? ? ? HL | ? ? ? HR | |]; subst.
      * inversion HL; subst. apply (MSeq _ _ (Str c s1) s2); auto.
      * apply (MSeq _ _ "" (Str c s)); auto. now apply nullable_matches.
    + inversion H; subst. apply (MSeq _ _ (Str c s1) s2); auto.
  - inversion H; subst; [apply MAltL|apply MAltR]; auto.
  - inversion H; subst. apply (MStarApp _ (Str c s1) s2); auto.
Qed.

Lemma deriv_complete r s0 :
  matches r s0 -> forall c s, s0 = Str c s -> matches (deriv c r) s.
Proof.
  induction 1 as [|f c0 Hf|r1 r2 s1 s2 H1 IH1 H2 IH2|r1 r2 s0 H IH|r1 r2 s0 H IH
                 | |r s1 s2 H1 IH1 H2 IH2]; intros c s E; cbn [deriv].
  - discriminate.
  - injection E as -> <-. rewrite Hf. constructor.
  - destruct s1 as [|a s1'].
    + cbn in E. rewrite (matches_nil_nullable _ _ H1 eq_refl).
      apply MAltR. now apply IH2.
    + cbn in E. injection E as -> <-.
      destruct (nullable r1); [apply MAltL|]; constructor; auto.
  - apply MAltL. now apply IH.
  - apply MAltR. now apply IH.
  - discriminate.
  - destruct s1 as [|a s1'].
    + cbn in E. now apply IH2.
    + cbn in E. injection E as -> <-. constructor; auto.
Qed.

Lemma fullmatch_matches r s : fullmatch r s = true <-> matches r s.
Proof.
  revert r. induction s as [|c s IH]; intros r; cbn [fullmatch].
  - split; [apply nullable_matches|]. intros H. now apply (matches_nil_nullable r "").
  - rewrite IH. split; [apply deriv_sound|]. intros H. now apply (deriv_complete r _ H).
Qed.

Lemma all_digits_app s1 s2 : all_digits (s1 +++ s2) = all_digits s1 && all_digits s2.
Proof. induction s1 as [|c s1 IH]; simpl; [reflexivity|]. now rewrite IH, andb_assoc. Qed.

Lemma matches_class f s : matches (Class f) s <-> exists c, s = Str c "" /\ f c = true.
Proof.
  split.
  - inversion 1; subst. eauto.
  - intros (c & -> & H). now constructor.
Qed.

Lemma matches_seq r1 r2 s :
  matches (Seq r1 r2) s <-> exists s1 s2, s = s1 +++ s2 /\ matches r1 s1 /\ matches r2 s2.
Proof.
  split.
  - inversion 1; subst. eauto.
  - intros (s1 & s2 & -> & H1 & H2). now constructor.
Qed.

Lemma matches_star_digit s : matches (Star digit) s <-> all_digits s = true.
Proof.
  split.
  - remember (Star digit) as r eqn:Er. induction 1; try discriminate.
    + reflexivity.
    + injection Er as ->. apply matches_class in H as (c & -> & Hc).
      rewrite all_digits_app. cbn [all_digits].
      rewrite Hc, IHmatches2 by reflexivity. reflexivity.
  - induction s as [|c s IH]; cbn [all_digits]; intros H.
    + constructor.
    + apply andb_prop in H as [Hc Hs].
      apply (MStarApp digit (Str c "") s); [now constructor|auto].
Qed.

Lemma matches_number s : matches (plus digit) s <-> number s.
Proof.
  unfold plus, number. rewrite matches_seq. split.
  - intros (s1 & s2 & -> & H1 & H2).
    apply matches_class in H1 as (c & -> & Hc). apply matches_star_digit in H2.
    split; [discriminate|]. change (is_digit c && all_digits s2 = true).
    now rewrite Hc, H2.
  - intros [Hne H]. destruct s as [|c s]; [contradiction|].
    cbn [all_digits] in H. apply andb_prop in H as [Hc Hs].
    exists (Str c ""), s. split; [reflexivity|].
    split; [now constructor|now apply matches_star_digit].
Qed.

Lemma matches_chr c s : matches (chr c) s <-> s = Str c "".
Proof.
  unfold chr. rewrite matches_class. split.
  - intros (c' & -> & H). apply N.eqb_eq in H. now subst.
  - intros ->. exists c. split; [reflexivity|apply N.eqb_refl].
Qed.

Lemma matches_dollar s : matches dollar s <-> s = "" \/ s = Str newline "".
Proof.
  unfold dollar. split.
  - inversion 1; subst.
    + left. match goal with H : matches Eps _ |- _ => now inversion H end.
    + right. now apply matches_chr.
  - intros [->| ->]; [apply MAltL; constructor|apply MAltR; now apply matches_chr].
Qed.

(** What the pattern accepts: four numbers separated by dots, possibly
    followed by one newline. *)
Lemma match_ip_spec (s : str) :
  match_ip s = true <->
  exists a b c d t,
    number a /\ number b /\ number c /\ number d
    /\ (t = "" \/ t = Str newline "")
    /\ s = (a +++ "." +++ b +++ "." +++ c +++ "." +++ d) +++ t.
Proof.
  unfold match_ip, dotted_quad. rewrite fullmatch_matches. split.
  - intros H.
    apply matches_seq in H as (q & t & -> & Hq & Ht).
    apply matches_seq in Hq as (a & q1 & -> & Ha & Hq).
    apply matches_seq in Hq as (d1 & q2 & -> & Hd1 & Hq).
    apply matches_seq in Hq as (b & q3 & -> & Hb & Hq).
    apply matches_seq in Hq as (d2 & q4 & -> & Hd2 & Hq).
    apply matches_seq in Hq as (c & q5 & -> & Hc & Hq).
    apply matches_seq in Hq as (d3 & d & -> & Hd3 & Hd).
    apply matches_chr in Hd1 as ->, Hd2 as ->, Hd3 as ->.
    exists a, b, c, d, t.
    rewrite <- !matches_number, <- matches_dollar. auto 10.
  - intros (a & b & c & d & t & Ha & Hb & Hc & Hd & Ht & ->).
    rewrite <- matches_number in Ha, Hb, Hc, Hd. rewrite <- matches_dollar in Ht.
    assert (Hdot : matches (chr ord_dot) ".") by now apply matches_chr.
    constructor; [|exact Ht].
    constructor; [exact Ha|]. apply (MSeq _ _ "." _ Hdot).
    constructor; [exact Hb|]. apply (MSeq _ _ "." _ Hdot).
    constructor; [exact Hc|]. apply (MSeq _ _ "." _ Hdot). exact Hd.
Qed.

End ReFacts.

Lemma in_ranges_above (c : N) (l : list (N * N)) :
  Forall (fun range => (c < fst range)%N) l ->
  existsb (fun range => (fst range <=? c)%N && (c <=? snd range)%N) l = false.
Proof.
  induction 1 as [|[lo hi] l Hlo _ IH]; [reflexivity|].
  cbn [existsb fst snd] in *. rewrite IH, orb_false_r.
  apply andb_false_iff. left. now apply N.leb_gt.
Qed.

(** Below U+0100 the decimal digits are 0-9. *)
Lemma is_digit_latin1 (c : N) :
  (c < 256)%N -> Re.is_digit c = ((48 <=? c) && (c <=? 57))%N.
Proof.
  intros Hc. unfold Re.is_digit, Re.decimal_ranges.
  match goal with
  | |- existsb ?f (?x :: ?l) = _ =>
      change (existsb f (x :: l)) with (f x || existsb f l)
  end.
  rewrite in_ranges_above; [apply orb_false_r|].
  repeat (apply Forall_cons; split; [cbn [fst]; lia|]). constructor.
Qed.

(** ** Which fields a method touches

    For a reflexive and transitive [R], [preserves R] follows the structure
    of the method. *)

Section Frame.

Context {World : Type} `{!Collaborators World}.
Variable R : FeatureExtractor -> FeatureExtractor -> Prop.
Hypothesis R_refl : forall o, R o o.
Hypothesis R_trans : forall a b c, R a b -> R b c -> R a c.

Lemma preserves_ret {A} (a : A) : preserves (World := World) R (ret a).
Proof. intros r. apply R_refl. Qed.

Lemma preserves_raise {A} (e : exn) : preserves (World := World) R (raise (A := A) e).
Proof. intros r. apply R_refl. Qed.

Lemma preserves_lift {A} (x : result A) : preserves (World := World) R (lift x).
Proof. intros r. apply R_refl. Qed.

Lemma preserves_get {A} (f : FeatureExtractor -> A) : preserves (World := World) R (get f).
Proof. intros r. apply R_refl. Qed.

Lemma preserves_update (f : FeatureExtractor -> FeatureExtractor) :
  (forall o, R o (f o)) -> preserves (World := World) R (update f).
Proof. intros H r. apply H. Qed.

Lemma preserves_bind {A B} (m : M World A) (k : A -> M World B) :
  preserves (World := World) R m -> (forall a, preserves (World := World) R (k a)) -> preserves (World := World) R (bind m k).
Proof.
  intros Hm Hk r. unfold bind. specialize (Hm r).
  destruct (m r) as [[a|e] r1]; cbn [snd] in *; [|exact Hm].
  eapply R_trans; [exact Hm|apply Hk].
Qed.

Lemma preserves_try_except {A} (body : M World A) (handler : exn -> M World A) :
  preserves (World := World) R body -> (forall e, preserves (World := World) R (handler e)) ->
  preserves (World := World) R (try_except body handler).
Proof.
  intros Hm Hk r. unfold try_except. specialize (Hm r).
  destruct (body r) as [[a|e] r1]; cbn [snd] in *; [exact Hm|].
  eapply R_trans; [exact Hm|apply Hk].
Qed.

Lemma preserves_do_head rq : preserves (World := World) R (do_head rq).
Proof. intros r. unfold do_head. destruct (session_head rq (world r)). apply R_refl. Qed.

Lemma preserves_do_get rq : preserves (World := World) R (do_get rq).
Proof. intros r. unfold do_get. destruct (session_get rq (world r)). apply R_refl. Qed.

Lemma preserves_do_whois u : preserves (World := World) R (do_whois u).
Proof. intros r. unfold do_whois. destruct (whois_whois u (world r)). apply R_refl. Qed.

Lemma preserves_do_tls h : preserves (World := World) R (do_tls h).
Proof. intros r. unfold do_tls. destruct (tls_handshake h (world r)). apply R_refl. Qed.

Lemma preserves_do_now : preserves (World := World) R do_now.
Proof. intros r. unfold do_now. destruct (datetime_now (world r)). apply R_refl. Qed.

Lemma preserves_for_each {A} (body : A -> M World ctl) (l : list A) :
  (forall x, preserves (World := World) R (body x)) -> preserves (World := World) R (for_each body l).
Proof.
  intros Hb. induction l as [|x l IH]; cbn [for_each].
  - apply preserves_ret.
  - apply preserves_bind; [apply Hb|].
    intros [|b]; [exact IH|apply preserves_ret].
Qed.

End Frame.

(** Follow the structure of a method down to its assignments. *)
Ltac frame_step :=
  first
    [ apply preserves_ret | apply preserves_raise | apply preserves_lift
    | apply preserves_get | apply preserves_do_head | apply preserves_do_get
    | apply preserves_do_whois | apply preserves_do_tls | apply preserves_do_now
    | apply preserves_bind; [..|intros ?]
    | apply preserves_try_except; [..|intros ?]
    | apply preserves_for_each; [..|intros ?]
    | match goal with
      | |- preserves _ (match ?x with _ => _ end) => destruct x
      | |- preserves _ (if ?x then _ else _) => destruct x
      end ].

Lemma writes_refl K o : writes K o o.
Proof. unfold writes. tauto. Qed.

Lemma writes_trans K a b c : writes K a b -> writes K b c -> writes K a c.
Proof.
  unfold writes. intros (?&?&?&?&?&?&Hf1&Hm1) (?&?&?&?&?&?&Hf2&Hm2).
  repeat split; try congruence.
  - intros k Hk. rewrite Hf2, Hf1; auto.
  - intros k Hk. auto.
Qed.

Lemma writes_weaken K K' o o' : K ⊆ K' -> writes K o o' -> writes K' o o'.
Proof.
  unfold writes. intros HK (?&?&?&?&?&?&Hf&Hm).
  repeat split; auto.
Qed.

Lemma writes_insert K k v o :
  k ∈ K -> writes K o (set_features (<[k := v]> (features o)) o).
Proof.
  intros Hk. unfold writes. cbn. repeat split; try reflexivity.
  - intros k' Hk'. apply lookup_insert_ne. intros ->. contradiction.
  - intros k' Hs. rewrite lookup_insert. case_decide; eauto.
Qed.

Lemma writes_set_feature {World} `{!Collaborators World} K k v :
  k ∈ K -> preserves (World := World) (writes K) (set_feature k v).
Proof. intros Hk. apply preserves_update. intros o. now apply writes_insert. Qed.

Ltac in_keys := apply list_elem_of_In; cbn; tauto.

Ltac frame_writes :=
  repeat first
    [ frame_step
    | apply writes_refl | (intros; eapply writes_trans; eassumption)
    | apply writes_set_feature; in_keys ].

Section Derivers.

Context {World : Type} `{!Collaborators World}.

Lemma _extract_url_features_writes :
  preserves (World := World) (writes lexical_keys) _extract_url_features.
Proof. unfold _extract_url_features, lexical_keys. frame_writes. Qed.

Lemma _extract_html_features_writes (sp : Soup) :
  preserves (World := World) (writes structural_keys) (_extract_html_features sp).
Proof. unfold _extract_html_features, structural_keys. frame_writes. Qed.

End Derivers.

(** Run a method symbolically down to the record it builds. *)
Ltac run_method :=
  cbv [bind get update set_feature lift ret raise try_except
       self world calls features set_features set_url set_html_content
       set_soup set_response url parsed_url domain html_content soup
       response fst snd].

(** Decide the tests of the handlers a raised exception passes through. *)
Ltac run_handlers :=
  repeat match goal with
         | |- context [if ?c then _ else _] => destruct c; run_method
         end.

Ltac lookup_inserts :=
  repeat first [ rewrite lookup_insert_eq | rewrite lookup_insert_ne by discriminate ].

Section Lexical.

Context {World : Type} `{!Collaborators World}.

(** C7. The lexical deriver sets [having_ip_address] to -1 when
    [re.match] finds the pattern [^\d+\.\d+\.\d+\.\d+$] in [netloc] and to 1
    otherwise, also when it later raises on the port.  The pattern
    accepts exactly four non-empty runs of decimal digits separated by
    dots, with at most one newline after them; [\d] is a decimal digit of
    Unicode, which below U+0100 is 0-9 and above it includes the
    Arabic-Indic and the fullwidth digits, but no superscript, Roman or
    ideographic numeral.  So [192.168.1.1] gives -1, also in Arabic-Indic
    digits, and [example.com] gives 1. *)
Theorem having_ip_address_spec (r : Run World) :
  features (self (snd (_extract_url_features r))) !! "having_ip_address" =
    Some (if Re.match_ip (netloc (parsed_url (self r))) then -1 else 1)
  /\ (forall s,
        Re.match_ip s = true <->
        exists a b c d t,
          Re.number a /\ Re.number b /\ Re.number c /\ Re.number d
          /\ (t = ""%str \/ t = Str Re.newline "")
          /\ s = (a +++ "." +++ b +++ "." +++ c +++ "." +++ d) +++ t)
  /\ (forall c, (c < 256)%N -> Re.is_digit c = ((48 <=? c) && (c <=? 57))%N)
  /\ forallb Re.is_digit [1632; 1641; 65296; 65305; 120782; 120831]%N = true
  /\ existsb Re.is_digit [178; 1631; 1642; 8544; 19968; 65295; 65306]%N = false
  /\ Re.match_ip "192.168.1.1" = true
  /\ Re.match_ip arabic_indic_ip = true
  /\ Re.match_ip "example.com" = false
  /\ Re.match_ip "192.168.1" = false
  /\ Re.match_ip "192.168.1.1:80" = false.
Proof.
  split.
  { destruct r as [[u p d h s rs f] w cs]. unfold _extract_url_features.
    run_method. destruct (port p); run_method; lookup_inserts; reflexivity. }
  split; [exact ReFacts.match_ip_spec|].
  split; [exact is_digit_latin1|].
  vm_compute. repeat split; reflexivity.
Qed.

(** C8. The lexical deriver reads the URL string and the parsed URL
    (with [domain], its authority) and nothing else: two runs on objects
    that agree on these end alike, return or raise, and agree on the
    entries of all nine lexical keys when the deriver returns (on the
    seven written before the port is read when it raises); a second run
    on the same object ends as the first and leaves the object as the
    first run left it; the deriver calls no collaborator. *)
Theorem lexical_deriver_deterministic (r q : Run World) :
  url (self q) = url (self r) ->
  parsed_url (self q) = parsed_url (self r) ->
  domain (self q) = domain (self r) ->
  fst (_extract_url_features q) = fst (_extract_url_features r)
  /\ Forall (fun k => features (self (snd (_extract_url_features q))) !! k
                      = features (self (snd (_extract_url_features r))) !! k)
            (match fst (_extract_url_features r) with
             | Ret _ => lexical_keys
             | Raise _ => take 7 lexical_keys
             end)
  /\ fst (_extract_url_features (snd (_extract_url_features r)))
     = fst (_extract_url_features r)
  /\ self (snd (_extract_url_features (snd (_extract_url_features r))))
     = self (snd (_extract_url_features r))
  /\ world (snd (_extract_url_features r)) = world r
  /\ calls (snd (_extract_url_features r)) = calls r.
Proof.
  destruct r as [[u p d h s rs f] w cs], q as [[u' p' d' h' s' rs' f'] w' cs'].
  cbn [self url parsed_url domain]. intros -> -> ->.
  unfold _extract_url_features. run_method.
  destruct (port p) as [pt|e] eqn:E; run_method; rewrite ?E; run_method.
  - split; [reflexivity|]. split.
    { unfold lexical_keys. repeat constructor; lookup_inserts; reflexivity. }
    split; [reflexivity|]. split; [|split; reflexivity].
    f_equal. rewrite !insert_id by (lookup_inserts; reflexivity). reflexivity.
  - split; [reflexivity|]. split.
    { cbn [take lexical_keys]. repeat constructor; lookup_inserts; reflexivity. }
    split; [reflexivity|]. split; [|split; reflexivity].
    f_equal. rewrite !insert_id by (lookup_inserts; reflexivity). reflexivity.
Qed.

End Lexical.

Lemma lexical_deriver_deterministic_witness :
  (url (self Offline.marked) = url (self Offline.start)
   /\ parsed_url (self Offline.marked) = parsed_url (self Offline.start)
   /\ domain (self Offline.marked) = domain (self Offline.start))
  /\ Forall (fun k => features (self (snd (_extract_url_features Offline.marked))) !! k
                      = features (self (snd (_extract_url_features Offline.start))) !! k)
            lexical_keys.
Proof.
  split; [repeat split|].
  exact (proj1 (proj2 (lexical_deriver_deterministic
                         Offline.start Offline.marked eq_refl eq_refl eq_refl))).
Defined.

(** ** The network signal deriver *)

Lemma network_defaults_lookup (f : gmap string Z) (k : string) :
  network_defaults f !! k = if decide (k ∈ network_keys) then Some 0 else f !! k.
Proof.
  unfold network_defaults. generalize network_keys as K. intros K. revert f.
  induction K as [|x K IH]; intros f; cbn [foldl].
  - case_decide as H; [inversion H|reflexivity].
  - rewrite IH. case_decide as H1; case_decide as H2; try reflexivity.
    + exfalso. apply H2. now right.
    + apply elem_of_cons in H2 as [->|H2]; [|contradiction].
      now rewrite lookup_insert_eq.
    + rewrite lookup_insert_ne; [reflexivity|].
      intros ->. apply H2. now left.
Qed.

Lemma writes_network_defaults (o : FeatureExtractor) :
  writes network_keys o (set_features (network_defaults (features o)) o).
Proof.
  unfold writes, set_features.
  cbn [url parsed_url domain html_content soup response features].
  repeat split; try reflexivity.
  - intros k Hk. rewrite network_defaults_lookup. now case_decide.
  - intros k Hs. rewrite network_defaults_lookup. case_decide; eauto.
Qed.

Section Network.

Context {World : Type} `{!Collaborators World}.

Lemma _perform_additional_lookups_writes :
  preserves (World := World) (writes network_keys) _perform_additional_lookups.
Proof.
  unfold _perform_additional_lookups, whois_dns_tls, domain_age_features,
    redirect_check, network_keys.
  frame_writes.
  apply preserves_update. intros o. apply writes_network_defaults.
Qed.

(** The two handlers catch everything: the deriver returns. *)
Lemma _perform_additional_lookups_returns (r : Run World) :
  fst (_perform_additional_lookups r) = Ret tt.
Proof.
  unfold _perform_additional_lookups, set_feature, bind, try_except, update, ret.
  destruct (whois_dns_tls _) as [[[]|e] r1]; cbn [fst snd];
    destruct (redirect_check (World := World) _) as [[[]|e'] r2]; reflexivity.
Qed.

Lemma network_keys_bound (r : Run World) (k : string) :
  k ∈ network_keys ->
  is_Some (features (self (snd (_perform_additional_lookups r))) !! k).
Proof.
  intros Hk. unfold _perform_additional_lookups.
  match goal with
  | |- context [bind ?m ?c] => set (rest := c); set (first := m)
  end.
  unfold bind. destruct (first r) as [[[]|e] r1] eqn:E1.
  2:{ unfold first, update in E1. discriminate. }
  assert (H1 : is_Some (features (self r1) !! k)).
  { unfold first, update in E1. injection E1 as <-.
    cbn [self features set_features].
    rewrite network_defaults_lookup. rewrite decide_True by exact Hk. eauto. }
  assert (Hw : preserves (World := World) (writes network_keys) (rest tt)).
  { unfold rest, whois_dns_tls, domain_age_features, redirect_check, network_keys.
    frame_writes. }
  destruct (Hw r1) as (_&_&_&_&_&_&_&Hm). now apply Hm.
Qed.

(** C9. [_perform_additional_lookups] returns, whatever WHOIS, the TLS
    handshake and the redirect check do, and then each of the eleven
    network keys is bound in [features] to an integer, which is the value
    the assembler puts in the key's slot: the default of the assembler is
    not used for these keys. *)
Theorem network_keys_always_bound (r : Run World) :
  fst (_perform_additional_lookups r) = Ret tt
  /\ length network_keys = 11%nat
  /\ Forall
       (fun k =>
          exists (v : Z) (i : nat),
            features (self (snd (_perform_additional_lookups r))) !! k = Some v
            /\ feature_order !! i = Some k
            /\ get_feature_vector
                 (features (self (snd (_perform_additional_lookups r)))) !! i
               = Some v)
       network_keys.
Proof.
  split; [apply _perform_additional_lookups_returns|].
  split; [reflexivity|].
  apply Forall_forall. intros k Hk.
  destruct (network_keys_bound r k Hk) as [v Hv].
  destruct (slot_bound _ k v (network_keys_in_order k Hk) Hv) as (i&Hi&Hvec).
  exists v, i. auto.
Qed.

(** C2. When the WHOIS lookup raises, the deriver returns with
    [sslfinal_state] set to -1, which is what the assembler puts in slot
    7, and the only call it has made is the WHOIS lookup: no TLS
    handshake was attempted. *)
Theorem whois_failure_forces_sslfinal_state (r : Run World) (e : exn) (w' : World) :
  whois_whois (url (self r)) (world r) = (Raise e, w') ->
  fst (_perform_additional_lookups r) = Ret tt
  /\ features (self (snd (_perform_additional_lookups r))) !! "sslfinal_state"
     = Some (-1)
  /\ get_feature_vector (features (self (snd (_perform_additional_lookups r)))) !! 7%nat
     = Some (-1)
  /\ calls (snd (_perform_additional_lookups r))
     = calls r ++ [CallWhois (url (self r))].
Proof.
  intros Hw. split; [apply _perform_additional_lookups_returns|].
  rewrite (get_feature_vector_lookup _ 7 "sslfinal_state" eq_refl).
  destruct r as [[u p d h s rs f] w cs]. cbn [self world url calls] in *.
  unfold _perform_additional_lookups, whois_dns_tls, redirect_check.
  cbv [do_whois]. run_method. rewrite Hw.
  destruct rs as [resp|]; run_method; lookup_inserts; auto.
Qed.

End Network.

Lemma whois_failure_forces_sslfinal_state_witness :
  whois_whois (url (self Offline.start)) (world Offline.start)
    = (Raise (PyException "PywhoisError"), tt)
  /\ features (self (snd (_perform_additional_lookups Offline.start))) !! "sslfinal_state"
     = Some (-1).
Proof.
  split; [reflexivity|].
  exact (proj1 (proj2 (whois_failure_forces_sslfinal_state
                         Offline.start _ _ eq_refl))).
Defined.

(** ** The fetcher *)

Lemma get_calls_app (a b : list Call) : get_calls (a ++ b) = get_calls a ++ get_calls b.
Proof. unfold get_calls. apply omap_app. Qed.

Lemma get_requests_app (a b : list Call) :
  get_requests (a ++ b) = get_requests a ++ get_requests b.
Proof. unfold get_requests. now rewrite get_calls_app, fmap_app. Qed.

Lemma new_calls_app {World} (r r' : Run World) (new : list Call) :
  calls r' = calls r ++ new -> new_calls r r' = new.
Proof. intros H. unfold new_calls. rewrite H. apply drop_app_length. Qed.

Lemma get_ok_not_failed (rq : Request) (resp : Response) :
  raise_for_status resp = Ret tt ->
  forallb http_failed (get_calls [CallHead rq; CallGet rq (Ret resp)]) = false.
Proof.
  intros H. unfold get_calls. cbn -[raise_for_status].
  unfold http_failed. cbn -[raise_for_status]. now rewrite H.
Qed.

Section Fetch.

Context {World : Type} `{!Collaborators World}.

Lemma attempt_body_post (p : ParsedURL) (max_retries : Z) (scheme : str)
    (attempt : Z) (r : Run World) :
  parsed_url (self r) = p ->
  fetch_post p [ {| req_url := attempt_url p scheme; req_verify := (attempt =? 0) |} ]
    r (fst (attempt_body max_retries scheme attempt r))
      (snd (attempt_body max_retries scheme attempt r)).
Proof.
  destruct r as [[u p0 d h s rs f] w cs]. cbn [self parsed_url]. intros ->.
  unfold attempt_body, request, fetch_post. cbv [do_head do_get]. run_method.
  set (rq := {| req_url := attempt_url p scheme; req_verify := attempt =? 0 |}).
  destruct (session_head rq w) as [hx w1].
  destruct (session_get rq w1) as [[resp|e] w2].
  - destruct (raise_for_status resp) as [[]|e] eqn:Hst.
    + destruct (BeautifulSoup (text resp)) as [sp|e] eqn:Hsp.
      * exists [CallHead rq; CallGet rq (Ret resp)].
        split; [now rewrite <- List.app_assoc|].
        split; [reflexivity|]. split; [reflexivity|]. split; [reflexivity|].
        split; [reflexivity|]. split; [exists []; reflexivity|].
        split; [|eexists; reflexivity].
        exists [], rq, resp. repeat split; try reflexivity. exact Hst.
      * run_handlers.
        all: exists [CallHead rq; CallGet rq (Ret resp)].
        all: split; [now rewrite <- List.app_assoc|].
        all: repeat split; try reflexivity.
        all: match goal with
             | H : forallb _ _ = true |- _ =>
                 rewrite (get_ok_not_failed rq resp Hst) in H; discriminate
             end.
    + run_handlers.
      all: exists [CallHead rq; CallGet rq (Ret resp)].
      all: split; [now rewrite <- List.app_assoc|].
      all: repeat split; reflexivity.
  - run_handlers.
    all: exists [CallHead rq; CallGet rq (Raise e)].
    all: split; [now rewrite <- List.app_assoc|].
    all: repeat split; reflexivity.
Qed.

Lemma for_each_post {A} (p : ParsedURL) (g : A -> list Request)
    (body : A -> M World ctl) :
  (forall x r, parsed_url (self r) = p ->
     fetch_post p (g x) r (fst (body x r)) (snd (body x r))) ->
  forall l r, parsed_url (self r) = p ->
    fetch_post p (l ≫= g) r (fst (for_each body l r)) (snd (for_each body l r)).
Proof.
  intros Hb. induction l as [|x l IH]; intros r Hp; cbn [for_each].
  - exists []. rewrite app_nil_r. repeat split; auto.
  - unfold bind. specialize (Hb x r Hp).
    destruct (body x r) as [[[|b]|e] r1]; cbn [fst snd] in Hb;
      destruct Hb as (new1 & Hc1 & Hp1 & Hd1 & Hf1 & Hres1); [| |contradiction].
    + destruct Hres1 as (Hg1 & Hs1 & Hh1).
      specialize (IH r1 Hp1).
      destruct (for_each body l r1) as [[[|b]|e] r2]; cbn [fst snd] in *;
        destruct IH as (new2 & Hc2 & Hp2 & Hd2 & Hf2 & Hres2); [| |contradiction];
        exists (new1 ++ new2);
        (split; [rewrite Hc2, Hc1; now rewrite <- List.app_assoc|]);
        (split; [exact Hp2|]); (split; [congruence|]); (split; [congruence|]).
      * destruct Hres2 as (Hg2 & Hs2 & Hh2).
        split; [rewrite get_requests_app, Hg1, Hg2; reflexivity|].
        split; [congruence|].
        rewrite get_calls_app, forallb_app. intros [H1 H2]%andb_prop.
        destruct (Hh1 H1), (Hh2 H2). split; congruence.
      * destruct Hres2 as (-> & Hpre & (pre & rq & resp & Hg & Hst & Hu & Hh) & Hsp).
        split; [reflexivity|].
        split; [rewrite get_requests_app, Hg1; now apply prefix_app|].
        split; [|exact Hsp].
        exists (get_calls new1 ++ pre), rq, resp.
        rewrite get_calls_app, Hg, <- List.app_assoc. auto.
    + cbn [ret fst snd]. exists new1.
      destruct Hres1 as (-> & Hpre & Hlast & Hsp).
      repeat split; auto.
      now apply prefix_app_r.
Qed.

(** [fetch_website] as a whole: its two loops run through [schedule]. *)
Lemma fetch_website_post (max_retries : Z) (r : Run World) :
  exists c,
    fetch_post (parsed_url (self r)) (schedule (parsed_url (self r)) max_retries)
      r (Ret c) (snd (fetch_website max_retries r))
    /\ fst (fetch_website max_retries r)
       = Ret (match c with Return b => b | Next => false end).
Proof.
  unfold fetch_website, bind, get. cbn [fst snd].
  set (p := parsed_url (self r)).
  pose proof (for_each_post p
    (fun scheme => Py.range (max_retries + 1) ≫=
       (fun attempt => [ {| req_url := attempt_url p scheme;
                            req_verify := (attempt =? 0) |} ]))
    (fun scheme => for_each (attempt_body max_retries scheme)
                     (Py.range (max_retries + 1)))) as H.
  specialize (H (fun scheme r0 Hp0 =>
    for_each_post p _ (attempt_body max_retries scheme)
      (fun attempt r1 Hp1 => attempt_body_post p max_retries scheme attempt r1 Hp1)
      (Py.range (max_retries + 1)) r0 Hp0)).
  specialize (H (schemes_to_try p) r eq_refl).
  fold (schedule p max_retries) in H.
  destruct (for_each _ (schemes_to_try p) r) as [[c|e] r1]; cbn [fst snd] in H.
  - exists c. destruct c as [|b]; cbn [ret fst snd]; split; auto.
  - destruct H as (? & _ & _ & _ & _ & []).
Qed.

End Fetch.

Section Pipeline.

Context {World : Type} `{!Collaborators World}.

(** C1, as the code has it.  The GET requests of [fetch_website] are, in
    order, a prefix of [schedule]: for each scheme to try, attempt 0 with
    the certificate verified and every later attempt without
    verification, whatever made the attempt before it fail.  When
    [fetch_website] returns [False] every request of the schedule was
    sent; when it returns [True] the last GET sent had a success status;
    it never raises. *)
Theorem fetch_website_follows_schedule (max_retries : Z) (r : Run World) :
  get_requests (new_calls r (snd (fetch_website max_retries r)))
    `prefix_of` schedule (parsed_url (self r)) max_retries
  /\ match fst (fetch_website max_retries r) with
     | Ret false =>
         get_requests (new_calls r (snd (fetch_website max_retries r)))
         = schedule (parsed_url (self r)) max_retries
     | Ret true =>
         exists pre rq resp,
           get_calls (new_calls r (snd (fetch_website max_retries r)))
           = pre ++ [(rq, Ret resp)]
           /\ raise_for_status resp = Ret tt
     | Raise _ => False
     end.
Proof.
  destruct (fetch_website_post max_retries r) as (c & (new & Hc & _ & _ & _ & Hres) & Hfst).
  rewrite Hfst, (new_calls_app _ _ _ Hc).
  destruct c as [|b]; cbn [fst].
  - destruct Hres as (Hg & _). rewrite Hg. split; reflexivity.
  - destruct Hres as (-> & Hpre & (pre & rq & resp & Hg & Hst & _) & _).
    split; [exact Hpre|]. exists pre, rq, resp. auto.
Qed.

(** Without a parsed page the structural deriver does not run: only
    lexical and network keys are written. *)
Lemma extract_all_features_no_soup (r : Run World) (k : string) :
  soup (self r) = None -> k ∉ lexical_keys -> k ∉ network_keys ->
  features (self (snd (extract_all_features r))) !! k = features (self r) !! k.
Proof.
  intros Hs Hl Hn. unfold extract_all_features, bind, get.
  pose proof (_extract_url_features_writes r) as W1.
  destruct (_extract_url_features r) as [[[]|e] r1]; cbn [fst snd] in *;
    destruct W1 as (_&_&_&_&Hs1&_&Hf1&_); [|now apply Hf1].
  rewrite Hs1, Hs. cbn [ret fst snd].
  pose proof (_perform_additional_lookups_writes r1) as W2.
  destruct (_perform_additional_lookups r1) as [[[]|e] r2]; cbn [fst snd] in *;
    destruct W2 as (_&_&_&_&_&_&Hf2&_); rewrite Hf2 by exact Hn; now apply Hf1.
Qed.

(** C4. When [fetch_website] returns [False] on a new extractor, then
    after [extract_all_features] none of the nine structural keys is in
    [features], and the assembler puts 0 in the slot of each. *)
Theorem fetch_failure_leaves_structural_keys_absent
    (raw : str) (max_retries : Z) (w : World) :
  fst (fetch_website max_retries (new_run raw w)) = Ret false ->
  length structural_keys = 9%nat
  /\ Forall
       (fun k =>
          features (self (snd (extract_all_features
            (snd (fetch_website max_retries (new_run raw w)))))) !! k = None
          /\ exists i,
               feature_order !! i = Some k
               /\ get_feature_vector
                    (features (self (snd (extract_all_features
                       (snd (fetch_website max_retries (new_run raw w))))))) !! i
                  = Some 0)
       structural_keys.
Proof.
  set (r0 := new_run raw w). intros Hfalse. split; [reflexivity|].
  destruct (fetch_website_post max_retries r0) as (c & (new & _ & _ & _ & Hf & Hres) & Hfst).
  rewrite Hfst in Hfalse.
  assert (Hs : soup (self (snd (fetch_website max_retries r0))) = None).
  { destruct c as [|b].
    - destruct Hres as (_ & Hs & _). exact Hs.
    - destruct Hres as (-> & _). discriminate. }
  assert (Hkeys : Forall (fun k => (k ∉ lexical_keys) /\ (k ∉ network_keys))
                         structural_keys).
  { unfold structural_keys.
    repeat constructor; intros Hin; apply list_elem_of_In in Hin; cbn in Hin;
      intuition discriminate. }
  rewrite Forall_forall in Hkeys |- *. intros k Hk.
  destruct (Hkeys k Hk) as [Hl Hn].
  assert (Hnone : features (self (snd (extract_all_features
                    (snd (fetch_website max_retries r0))))) !! k = None).
  { rewrite (extract_all_features_no_soup _ k Hs Hl Hn), Hf. apply lookup_empty. }
  split; [exact Hnone|].
  apply slot_absent; [now apply structural_keys_in_order|exact Hnone].
Qed.

End Pipeline.

(** ** The two concrete worlds, run *)

(** Offline, every attempt times out, and still attempts 1 and 2 of each
    scheme go without certificate verification. *)
Example offline_fetch :
  fst (fetch_website 2 Offline.start) = Ret false
  /\ get_calls (calls (snd (fetch_website 2 Offline.start))) =
     [ ({| req_url := "http://example.com"; req_verify := true |}, Raise (RequestException Timeout));
       ({| req_url := "http://example.com"; req_verify := false |}, Raise (RequestException Timeout));
       ({| req_url := "http://example.com"; req_verify := false |}, Raise (RequestException Timeout));
       ({| req_url := "https://example.com"; req_verify := true |}, Raise (RequestException Timeout));
       ({| req_url := "https://example.com"; req_verify := false |}, Raise (RequestException Timeout));
       ({| req_url := "https://example.com"; req_verify := false |}, Raise (RequestException Timeout)) ].
Proof. vm_compute. split; reflexivity. Qed.

(** Online, the second attempt fetches the page, and the features of the
    end-to-end scenario come out. *)
Example online_analysis :
  fst (fetch_website 2 Online.start) = Ret true
  /\ get_requests (calls (snd (fetch_website 2 Online.start))) =
     [ {| req_url := "http://example.com"; req_verify := true |};
       {| req_url := "http://example.com"; req_verify := false |} ]
  /\ (fun fs => (fs !! "https_token", fs !! "sfh", fs !! "iframe", fs !! "redirect",
                 fs !! "age_of_domain", fs !! "dnsrecord", fs !! "sslfinal_state"))
       (features (self (snd (extract_all_features (snd (fetch_website 2 Online.start))))))
     = (Some (-1), Some 1, Some (-1), Some (-1), Some 1, Some 1, Some 1).
Proof. vm_compute. repeat split; reflexivity. Qed.

(** When the parser rejects every page, [fetch_website] still returns
    [False] after the whole schedule, with [soup] null; the text and the
    URL of the last attempt stay in the object.  Here no GET failed, so
    this is not a run in which every HTTP exchange fails. *)
Example rejected_fetch :
  fst (fetch_website 2 Rejected.start) = Ret false
  /\ soup (self (snd (fetch_website 2 Rejected.start))) = None
  /\ html_content (self (snd (fetch_website 2 Rejected.start))) = Some Rejected.page
  /\ url (self (snd (fetch_website 2 Rejected.start))) = "https://example.com"%str
  /\ forallb http_failed (get_calls (calls (snd (fetch_website 2 Rejected.start))))
     = false.
Proof. vm_compute. repeat split; reflexivity. Qed.

(** The lexical features of [https://a.b.example.com:8443/login?next=/]:
    four labels give [having_sub_domain = 2]. *)
Example lexical_features_example :
  map_to_list
    (features (self (snd (_extract_url_features
       (new_run (World := unit) "https://a.b.example.com:8443/login?next=/" tt)))))
  ≡ₚ [ ("url_length", 41); ("having_ip_address", 1); ("shortining_service", -1);
       ("having_at_symbol", -1); ("double_slash_redirecting", -1);
       ("prefix_suffix", -1); ("having_sub_domain", 2); ("port", 1);
       ("https_token", 1) ].
Proof.
  apply (bool_decide_unpack _). vm_compute. exact I.
Qed.

Example split_examples :
  Py.split ord_dot "a.b.example.com" = ["a"; "b"; "example"; "com"]%str
  /\ Py.split ord_dot "example.com" = ["example"; "com"]%str
  /\ Py.split ord_colon "example.com:8443" = ["example.com"; "8443"]%str
  /\ Py.split ord_dot "" = [""%str]
  /\ Py.split ord_dot "a." = ["a"; ""]%str.
Proof. repeat split; reflexivity. Qed.

(** Refutation of C1 as worded.  Offline with [max_retries = 2], the
    second GET goes to the same URL as the first without certificate
    verification although the first failed with a timeout, not with a TLS
    or proxy error. *)
Lemma relaxed_verification_after_timeout :
  relaxed_only_after_tls_error None
    (get_calls (new_calls Offline.start (snd (fetch_website 2 Offline.start)))) = false
  /\ take 2 (get_calls (new_calls Offline.start (snd (fetch_website 2 Offline.start)))) =
     [ ({| req_url := "http://example.com"; req_verify := true |}, Raise (RequestException Timeout));
       ({| req_url := "http://example.com"; req_verify := false |}, Raise (RequestException Timeout)) ].
Proof. vm_compute. split; reflexivity. Qed.

Lemma fetch_failure_leaves_structural_keys_absent_witness :
  fst (fetch_website 2 (new_run "example.com" tt)) = Ret false
  /\ Forall
       (fun k =>
          features (self (snd (extract_all_features
            (snd (fetch_website 2 (new_run "example.com" tt)))))) !! k = None
          /\ exists i,
               feature_order !! i = Some k
               /\ get_feature_vector
                    (features (self (snd (extract_all_features
                       (snd (fetch_website 2 (new_run "example.com" tt))))))) !! i
                  = Some 0)
       structural_keys.
Proof.
  assert (Hfalse : fst (fetch_website 2 (new_run "example.com" tt)) = Ret false)
    by (vm_compute; reflexivity).
  split; [exact Hfalse|].
  exact (proj2 (fetch_failure_leaves_structural_keys_absent "example.com" 2 tt Hfalse)).
Defined.

(** ** More on the fetcher *)

Lemma head_get_pairs_app (a b : list (Request * result Response)) :
  head_get_pairs (a ++ b) = head_get_pairs a ++ head_get_pairs b.
Proof. unfold head_get_pairs. apply bind_app. Qed.

Lemma get_calls_head_get_pairs (gets : list (Request * result Response)) :
  get_calls (head_get_pairs gets) = gets.
Proof.
  induction gets as [|[rq x] gets IH]; [reflexivity|].
  change (head_get_pairs ((rq, x) :: gets))
    with ([CallHead rq; CallGet rq x] ++ head_get_pairs gets).
  rewrite get_calls_app, IH. reflexivity.
Qed.

Section FetchTrace.

Context {World : Type} `{!Collaborators World}.

Lemma attempt_body_trace (max_retries : Z) (scheme : str) (attempt : Z)
    (r : Run World) :
  fetch_trace r (fst (attempt_body max_retries scheme attempt r))
                (snd (attempt_body max_retries scheme attempt r)).
Proof.
  destruct r as [[u p d h s rs f] w cs].
  unfold attempt_body, request, fetch_trace. cbv [do_head do_get]. run_method.
  set (rq := {| req_url := attempt_url p scheme; req_verify := attempt =? 0 |}).
  destruct (session_head rq w) as [hx w1].
  destruct (session_get rq w1) as [[resp|e] w2].
  - destruct (raise_for_status resp) as [[]|e] eqn:Hst.
    + destruct (BeautifulSoup (text resp)) as [sp|e] eqn:Hsp.
      * exists [(rq, Ret resp)].
        split; [now rewrite <- List.app_assoc|].
        split; [reflexivity|]. exists [], rq, resp.
        split; [reflexivity|]. split; [reflexivity|]. split; [exact Hst|].
        unfold stored. cbn. rewrite Hsp. eauto 6.
      * run_handlers.
        all: exists [(rq, Ret resp)].
        all: split; [now rewrite <- List.app_assoc|].
        all: unfold attempt_failed, http_failed, parser_rejected.
        all: cbn [forallb fst snd]; rewrite Hst, Hsp; reflexivity.
    + run_handlers.
      all: exists [(rq, Ret resp)].
      all: split; [now rewrite <- List.app_assoc|].
      all: unfold attempt_failed, http_failed.
      all: cbn [forallb fst snd]; rewrite Hst; reflexivity.
  - run_handlers.
    all: exists [(rq, Raise e)].
    all: split; [now rewrite <- List.app_assoc|reflexivity].
Qed.

Lemma for_each_trace {A} (body : A -> M World ctl) :
  (forall x r, fetch_trace r (fst (body x r)) (snd (body x r))) ->
  forall l r, fetch_trace r (fst (for_each body l r)) (snd (for_each body l r)).
Proof.
  intros Hb. induction l as [|x l IH]; intros r; cbn [for_each].
  - exists []. cbn. now rewrite app_nil_r.
  - unfold bind. specialize (Hb x r).
    destruct (body x r) as [[[|b]|e] r1]; cbn [fst snd] in Hb;
      destruct Hb as (g1 & Hc1 & Hres1); [| |contradiction].
    + specialize (IH r1).
      destruct (for_each body l r1) as [[[|b]|e] r2]; cbn [fst snd] in *;
        destruct IH as (g2 & Hc2 & Hres2); [| |contradiction];
        exists (g1 ++ g2);
        (split; [rewrite Hc2, Hc1, head_get_pairs_app; now rewrite <- List.app_assoc|]).
      * rewrite forallb_app, Hres1, Hres2. reflexivity.
      * destruct Hres2 as (-> & pre & rq & resp & -> & Hpre & Hst & Hsto).
        split; [reflexivity|]. exists (g1 ++ pre), rq, resp.
        rewrite forallb_app, Hres1, Hpre, <- List.app_assoc. auto.
    + cbn [ret fst snd]. exists g1. auto.
Qed.

Lemma fetch_website_trace (max_retries : Z) (r : Run World) :
  exists c,
    fetch_trace r (Ret c) (snd (fetch_website max_retries r))
    /\ fst (fetch_website max_retries r)
       = Ret (match c with Return b => b | Next => false end).
Proof.
  unfold fetch_website, bind, get. cbn [fst snd].
  pose proof (for_each_trace
    (fun scheme => for_each (attempt_body max_retries scheme)
                     (Py.range (max_retries + 1)))
    (fun scheme r0 => for_each_trace (attempt_body max_retries scheme)
       (fun attempt r1 => attempt_body_trace max_retries scheme attempt r1)
       (Py.range (max_retries + 1)) r0)
    (schemes_to_try (parsed_url (self r))) r) as H.
  destruct (for_each _ (schemes_to_try (parsed_url (self r))) r) as [[c|e] r1];
    cbn [fst snd] in H.
  - exists c. destruct c as [|b]; cbn [ret fst snd]; split; auto.
  - destruct H as (? & _ & []).
Qed.

End FetchTrace.

Lemma length_schedule (p : ParsedURL) (max_retries : Z) :
  length (schedule p max_retries)
  = (length (schemes_to_try p) * Z.to_nat (max_retries + 1))%nat.
Proof.
  unfold schedule. generalize (schemes_to_try p) as ss.
  assert (Hin : forall s,
            length (Py.range (max_retries + 1) ≫=
                      (fun attempt => [ {| req_url := attempt_url p s;
                                           req_verify := (attempt =? 0) |} ]))
            = Z.to_nat (max_retries + 1)).
  { intros s. unfold Py.range.
    transitivity (length (seq 0 (Z.to_nat (max_retries + 1)))); [|apply length_seq].
    generalize (seq 0 (Z.to_nat (max_retries + 1))) as l.
    induction l as [|a l IH]; [reflexivity|].
    cbn [map mbind list_bind app length]. f_equal. exact IH. }
  induction ss as [|s ss IH]; [reflexivity|].
  cbn [mbind list_bind]. rewrite length_app, Hin.
  change (list_bind _ _ ?f ss) with (ss ≫= f). rewrite IH. cbn [length]. lia.
Qed.

Lemma length_schemes_to_try (p : ParsedURL) : (length (schemes_to_try p) <= 2)%nat.
Proof.
  unfold schemes_to_try.
  destruct (str_eqb (scheme p) "http"), (str_eqb (scheme p) "https"); cbn; lia.
Qed.

Section FetchMore.

Context {World : Type} `{!Collaborators World}.

(** X1. When [fetch_website] returns [True], the last GET it sent had a
    success status and every GET before it belongs to a failed attempt;
    the object then holds that response, its text, the document parsed
    from the text, and the URL of that request as its new URL. *)
Theorem fetch_success_stores_page (max_retries : Z) (r : Run World) :
  fst (fetch_website max_retries r) = Ret true ->
  exists pre rq resp,
    get_calls (new_calls r (snd (fetch_website max_retries r))) = pre ++ [(rq, Ret resp)]
    /\ forallb attempt_failed pre = true
    /\ raise_for_status resp = Ret tt
    /\ stored rq resp (self (snd (fetch_website max_retries r))).
Proof.
  intros Htrue.
  destruct (fetch_website_trace max_retries r) as (c & (gets & Hc & Hres) & Hfst).
  rewrite Hfst in Htrue. rewrite (new_calls_app _ _ _ Hc), get_calls_head_get_pairs.
  destruct c as [|b]; [discriminate|].
  destruct Hres as (_ & pre & rq & resp & -> & Hpre & Hst & Hsto).
  exists pre, rq, resp. auto.
Qed.

(** X2. Every GET of [fetch_website] comes right after a HEAD for the same
    request and nothing else is called; there are at most
    [2 * (max_retries + 1)] GETs; and when [False] is returned every
    attempt failed, in the HTTP exchange or in the parser. *)
Theorem fetch_calls_bounded (max_retries : Z) (r : Run World) :
  new_calls r (snd (fetch_website max_retries r))
  = head_get_pairs (get_calls (new_calls r (snd (fetch_website max_retries r))))
  /\ (length (get_calls (new_calls r (snd (fetch_website max_retries r))))
      <= 2 * Z.to_nat (max_retries + 1))%nat
  /\ match fst (fetch_website max_retries r) with
     | Ret false =>
         forallb attempt_failed
           (get_calls (new_calls r (snd (fetch_website max_retries r)))) = true
     | _ => True
     end.
Proof.
  destruct (fetch_website_trace max_retries r) as (c & (gets & Hc & Hres) & Hfst).
  rewrite (new_calls_app _ _ _ Hc), get_calls_head_get_pairs.
  split; [reflexivity|]. split.
  - destruct (fetch_website_post max_retries r) as (c' & (new & Hc' & _ & _ & _ & Hres') & _).
    assert (Hnew : new = head_get_pairs gets).
    { rewrite Hc in Hc'. now apply app_inv_head in Hc'. }
    assert (Hpre : get_requests new `prefix_of` schedule (parsed_url (self r)) max_retries).
    { destruct c' as [|b]; [destruct Hres' as (-> & _); reflexivity|].
      now destruct Hres' as (_ & Hp & _). }
    apply prefix_length in Hpre.
    rewrite length_schedule in Hpre. unfold get_requests in Hpre.
    rewrite length_fmap, Hnew, get_calls_head_get_pairs in Hpre.
    pose proof (length_schemes_to_try (parsed_url (self r))). nia.
  - rewrite Hfst. destruct c as [|[|]]; auto.
    destruct Hres as (Hb & _). discriminate.
Qed.

(** X3. With a negative [max_retries] no attempt is made: [fetch_website]
    returns [False] and leaves the object, the world and the calls as they
    were. *)
Theorem fetch_without_attempts (max_retries : Z) (r : Run World) :
  max_retries < 0 ->
  fetch_website max_retries r = (Ret false, r).
Proof.
  intros Hneg. unfold fetch_website, bind, get.
  assert (Hr : Py.range (max_retries + 1) = []).
  { unfold Py.range. replace (Z.to_nat (max_retries + 1)) with 0%nat by lia. reflexivity. }
  rewrite Hr. cbn [for_each].
  generalize (schemes_to_try (parsed_url (self r))) as ss.
  induction ss as [|s ss IH]; [reflexivity|].
  cbn [for_each]. unfold bind at 1. cbn [ret]. exact IH.
Qed.

(** X4. [fetch_website] never changes the feature dictionary, the parsed
    URL or [domain], whatever it returns. *)
Theorem fetch_website_frame (max_retries : Z) (r : Run World) :
  features (self (snd (fetch_website max_retries r))) = features (self r)
  /\ parsed_url (self (snd (fetch_website max_retries r))) = parsed_url (self r)
  /\ domain (self (snd (fetch_website max_retries r))) = domain (self r).
Proof.
  destruct (fetch_website_post max_retries r) as (c & (new & _ & Hp & Hd & Hf & _) & _).
  auto.
Qed.

End FetchMore.

(** ** When every attempt fails *)

Lemma last_success_app (a b : list (Request * result Response)) :
  last_success (a ++ b)
  = match last_success b with Some x => Some x | None => last_success a end.
Proof.
  unfold last_success. rewrite omap_app.
  generalize (omap fetched a) as la, (omap fetched b) as lb. intros la lb.
  induction lb as [|y lb IH] using rev_ind.
  - now rewrite app_nil_r.
  - rewrite List.app_assoc, !last_snoc. reflexivity.
Qed.

Lemma last_success_none (gets : list (Request * result Response)) :
  last_success gets = None <-> forallb http_failed gets = true.
Proof.
  unfold last_success. rewrite last_None.
  induction gets as [|[rq x] gets IH]; [easy|].
  cbn [omap list_omap forallb]. unfold fetched at 1, http_failed at 1. cbn [fst snd].
  destruct x as [resp|e]; [destruct (raise_for_status resp) as [[]|e]|];
    cbn [andb]; try exact IH; easy.
Qed.

Section FetchContent.

Context {World : Type} `{!Collaborators World}.

Lemma attempt_body_content (max_retries : Z) (scheme : str) (attempt : Z)
    (r : Run World) :
  keeps_last_success r (snd (attempt_body max_retries scheme attempt r)).
Proof.
  destruct r as [[u p d h s rs f] w cs].
  unfold attempt_body, request, keeps_last_success. cbv [do_head do_get]. run_method.
  set (rq := {| req_url := attempt_url p scheme; req_verify := attempt =? 0 |}).
  destruct (session_head rq w) as [hx w1].
  destruct (session_get rq w1) as [[resp|e] w2].
  - destruct (raise_for_status resp) as [[]|e] eqn:Hst.
    + destruct (BeautifulSoup (text resp)) as [sp|e] eqn:Hsp.
      * exists [(rq, Ret resp)].
        split; [now rewrite <- List.app_assoc|].
        unfold last_success, fetched. cbn [omap list_omap fst snd last].
        rewrite Hst. split; reflexivity.
      * run_handlers.
        all: exists [(rq, Ret resp)].
        all: split; [now rewrite <- List.app_assoc|].
        all: unfold last_success, fetched; cbn [omap list_omap fst snd last].
        all: rewrite Hst; split; reflexivity.
    + run_handlers.
      all: exists [(rq, Ret resp)].
      all: split; [now rewrite <- List.app_assoc|].
      all: unfold last_success, fetched; cbn [omap list_omap fst snd last].
      all: rewrite Hst; split; reflexivity.
  - run_handlers.
    all: exists [(rq, Raise e)].
    all: split; [now rewrite <- List.app_assoc|split; reflexivity].
Qed.

Lemma keeps_last_success_trans (r r1 r2 : Run World) :
  keeps_last_success r r1 -> keeps_last_success r1 r2 -> keeps_last_success r r2.
Proof.
  intros (g1 & Hc1 & Hh1 & Hu1) (g2 & Hc2 & Hh2 & Hu2).
  exists (g1 ++ g2).
  split; [rewrite Hc2, Hc1, head_get_pairs_app; now rewrite <- List.app_assoc|].
  rewrite last_success_app, Hh2, Hu2.
  destruct (last_success g2) as [[rq resp]|]; [split; reflexivity|].
  split; assumption.
Qed.

Lemma for_each_content {A} (body : A -> M World ctl) :
  (forall x r, keeps_last_success r (snd (body x r))) ->
  forall l r, keeps_last_success r (snd (for_each body l r)).
Proof.
  intros Hb. induction l as [|x l IH]; intros r; cbn [for_each].
  - exists []. cbn. now rewrite app_nil_r.
  - unfold bind. specialize (Hb x r).
    destruct (body x r) as [[[|b]|e] r1]; cbn [fst snd ret] in *; [|exact Hb|exact Hb].
    eapply keeps_last_success_trans; [exact Hb|apply IH].
Qed.

Lemma fetch_website_content (max_retries : Z) (r : Run World) :
  keeps_last_success r (snd (fetch_website max_retries r)).
Proof.
  unfold fetch_website, bind, get. cbn [fst snd].
  pose proof (for_each_content
    (fun scheme => for_each (attempt_body max_retries scheme)
                     (Py.range (max_retries + 1)))
    (fun scheme r0 => for_each_content (attempt_body max_retries scheme)
       (fun attempt r1 => attempt_body_content max_retries scheme attempt r1)
       (Py.range (max_retries + 1)) r0)
    (schemes_to_try (parsed_url (self r))) r) as H.
  destruct (for_each _ (schemes_to_try (parsed_url (self r))) r) as [[[|b]|e] r1];
    cbn [fst snd ret] in *; exact H.
Qed.

(** C6, as the code has it.  When every attempt of [fetch_website] fails -
    the client raises, the response has an error status, or the parser
    raises on the text of a response with a success status -
    [fetch_website] returns [False] without raising and leaves [soup] as
    it was.  [html_content] and [url] are left as they were exactly when
    every failure is in the HTTP exchange; otherwise they hold the text
    and the URL of the last attempt whose response had a success
    status. *)
Theorem fetch_failure_returns_false (max_retries : Z) (r : Run World) :
  forallb attempt_failed
    (get_calls (new_calls r (snd (fetch_website max_retries r)))) = true ->
  fst (fetch_website max_retries r) = Ret false
  /\ soup (self (snd (fetch_website max_retries r))) = soup (self r)
  /\ html_content (self (snd (fetch_website max_retries r)))
     = match last_success
               (get_calls (new_calls r (snd (fetch_website max_retries r)))) with
       | Some (_, resp) => Some (text resp)
       | None => html_content (self r)
       end
  /\ url (self (snd (fetch_website max_retries r)))
     = match last_success
               (get_calls (new_calls r (snd (fetch_website max_retries r)))) with
       | Some (rq, _) => req_url rq
       | None => url (self r)
       end
  /\ (last_success (get_calls (new_calls r (snd (fetch_website max_retries r)))) = None
      <-> forallb http_failed
            (get_calls (new_calls r (snd (fetch_website max_retries r)))) = true).
Proof.
  destruct (fetch_website_trace max_retries r) as (c & (gets & Hc & Hres) & Hfst).
  destruct (fetch_website_content max_retries r) as (gets' & Hc' & Hh & Hu).
  destruct (fetch_website_post max_retries r) as (c' & (new & Hc'' & _ & _ & _ & Hres') & Hfst').
  assert (Hg : get_calls (new_calls r (snd (fetch_website max_retries r))) = gets).
  { now rewrite (new_calls_app _ _ _ Hc), get_calls_head_get_pairs. }
  assert (Hg' : gets' = gets).
  { rewrite <- Hg. now rewrite (new_calls_app _ _ _ Hc'), get_calls_head_get_pairs. }
  subst gets'. rewrite Hg. intros Hall.
  assert (Hnext : c = Next).
  { destruct c as [|b]; [reflexivity|].
    destruct Hres as (_ & pre & rq & resp & -> & _ & Hst & (_ & _ & _ & sp & Hsp & _)).
    rewrite forallb_app in Hall. apply andb_prop in Hall as [_ Hall].
    cbn [forallb] in Hall.
    unfold attempt_failed, http_failed, parser_rejected in Hall. cbn [snd] in Hall.
    rewrite Hst, Hsp in Hall. discriminate. }
  subst c. split; [exact Hfst|].
  split.
  { rewrite Hfst in Hfst'. destruct c' as [|b].
    - now destruct Hres' as (_ & Hs & _).
    - destruct Hres' as (-> & _). discriminate. }
  split; [exact Hh|]. split; [exact Hu|]. apply last_success_none.
Qed.

End FetchContent.

(** Refutation of C6 as worded.  When every GET answers 200 with a page on
    which the parser raises, every scheme and attempt fails and
    [fetch_website] returns [False], yet [html_content], null before, holds
    the text of the last response, and [url] the URL of the last
    attempt. *)
Lemma failed_fetch_keeps_rejected_page :
  html_content (self Rejected.start) = None
  /\ forallb (attempt_failed (World := bool))
       (get_calls (new_calls Rejected.start (snd (fetch_website 2 Rejected.start))))
     = true
  /\ length (get_calls (new_calls Rejected.start (snd (fetch_website 2 Rejected.start))))
     = 6%nat
  /\ fst (fetch_website 2 Rejected.start) = Ret false
  /\ html_content (self (snd (fetch_website 2 Rejected.start))) = Some Rejected.page
  /\ html_content (self (snd (fetch_website 2 Rejected.start))) <> None
  /\ url (self (snd (fetch_website 2 Rejected.start))) <> url (self Rejected.start).
Proof. vm_compute. repeat split; (reflexivity || discriminate). Qed.

Lemma fetch_failure_returns_false_witness :
  forallb (attempt_failed (World := unit))
    (get_calls (new_calls Offline.start (snd (fetch_website 2 Offline.start)))) = true
  /\ fst (fetch_website 2 Offline.start) = Ret false
  /\ html_content (self (snd (fetch_website 2 Offline.start))) = None
  /\ url (self (snd (fetch_website 2 Offline.start))) = "http://example.com"%str.
Proof.
  assert (Hall : forallb (attempt_failed (World := unit))
                   (get_calls (new_calls Offline.start
                                 (snd (fetch_website 2 Offline.start)))) = true)
    by (vm_compute; reflexivity).
  split; [exact Hall|].
  pose proof (fetch_failure_returns_false 2 Offline.start Hall) as (H1 & _ & H3 & H4 & _).
  split; [exact H1|]. split; [rewrite H3|rewrite H4]; vm_compute; reflexivity.
Defined.

Lemma fetch_success_stores_page_witness :
  fst (fetch_website 2 Online.start) = Ret true
  /\ exists pre rq resp,
       get_calls (new_calls Online.start (snd (fetch_website 2 Online.start)))
       = pre ++ [(rq, Ret resp)]
       /\ forallb (attempt_failed (World := nat)) pre = true
       /\ raise_for_status resp = Ret tt
       /\ stored (World := nat) rq resp (self (snd (fetch_website 2 Online.start))).
Proof.
  assert (H : fst (fetch_website 2 Online.start) = Ret true) by (vm_compute; reflexivity).
  split; [exact H|]. exact (fetch_success_stores_page 2 Online.start H).
Defined.

Lemma fetch_without_attempts_witness :
  -1 < 0 /\ fetch_website (-1) Offline.start = (Ret false, Offline.start).
Proof.
  assert (H : -1 < 0) by lia.
  split; [exact H|]. exact (fetch_without_attempts (-1) Offline.start H).
Defined.

Lemma for_each_ext {World A} (b1 b2 : A -> M World ctl) :
  (forall x r, b1 x r = b2 x r) ->
  forall l r, for_each b1 l r = for_each b2 l r.
Proof.
  intros H. induction l as [|x l IH]; intros r; [reflexivity|].
  cbn [for_each]. unfold bind. rewrite H.
  destruct (b2 x r) as [[[|b]|e] r1]; auto.
Qed.

Lemma request_head_irrelevant {World} (C1 C2 : Collaborators World) :
  (forall rq w, snd (@session_head World C1 rq w) = snd (@session_head World C2 rq w)) ->
  (forall rq w, @session_get World C1 rq w = @session_get World C2 rq w) ->
  (forall t, @BeautifulSoup World C1 t = @BeautifulSoup World C2 t) ->
  forall u v r, @request World C1 u v r = @request World C2 u v r.
Proof.
  intros Hh Hg Hp u v [[u0 p d h s rs f] w cs].
  unfold request. cbv [do_head do_get]. run_method.
  set (rq := {| req_url := u; req_verify := v |}).
  specialize (Hh rq w).
  destruct (@session_head World C1 rq w) as [x1 w1],
           (@session_head World C2 rq w) as [x2 w2].
  cbn [snd] in Hh. subst w2. rewrite Hg.
  destruct (@session_get World C2 rq w1) as [[resp|e] w3]; [|reflexivity].
  destruct (raise_for_status resp) as [[]|e]; [|reflexivity].
  rewrite Hp. reflexivity.
Qed.

(** X5. The outcome of the HEAD request has no influence: two HTTP clients
    that differ only in what HEAD returns or raises (and leave the world
    in the same state) make [fetch_website] return the same value and
    leave the same object, world and calls. *)
Theorem head_outcome_irrelevant {World} (C1 C2 : Collaborators World)
    (max_retries : Z) (r : Run World) :
  (forall rq w, snd (@session_head World C1 rq w) = snd (@session_head World C2 rq w)) ->
  (forall rq w, @session_get World C1 rq w = @session_get World C2 rq w) ->
  (forall t, @BeautifulSoup World C1 t = @BeautifulSoup World C2 t) ->
  @fetch_website World C1 max_retries r = @fetch_website World C2 max_retries r.
Proof.
  intros Hh Hg Hp. unfold fetch_website, bind, get.
  rewrite (for_each_ext
    (fun scheme => for_each (@attempt_body World C1 max_retries scheme)
                     (Py.range (max_retries + 1)))
    (fun scheme => for_each (@attempt_body World C2 max_retries scheme)
                     (Py.range (max_retries + 1)))); [reflexivity|].
  intros scheme r0. apply for_each_ext. intros attempt r1.
  unfold attempt_body, try_except, bind, get. cbn [fst snd].
  rewrite (request_head_irrelevant C1 C2 Hh Hg Hp). reflexivity.
Qed.

Lemma head_outcome_irrelevant_witness :
  @fetch_website unit Offline.collaborators 2 Offline.start
  = @fetch_website unit offline_head_answered 2 Offline.start.
Proof.
  exact (head_outcome_irrelevant Offline.collaborators offline_head_answered 2
           Offline.start (fun _ _ => eq_refl) (fun _ _ => eq_refl) (fun _ => eq_refl)).
Defined.

(** ** More on the lexical deriver *)

Lemma split_nonempty (c : N) (s : str) : Py.split c s <> [].
Proof.
  destruct s as [|a s]; cbn [Py.split]; [discriminate|].
  destruct (N.eqb a c); [discriminate|]. destruct (Py.split c s); discriminate.
Qed.

Lemma length_split (c : N) (s : str) :
  length (Py.split c s) = S (PyStr.count c s).
Proof.
  induction s as [|a s IH]; [reflexivity|].
  cbn [Py.split PyStr.count]. destruct (N.eqb a c).
  - cbn [length]. now rewrite IH.
  - destruct (Py.split c s) as [|w ws]; [discriminate IH|exact IH].
Qed.

Lemma len_append (a b : str) : Py.len (a +++ b) = Py.len a + Py.len b.
Proof.
  unfold Py.len. induction a as [|c a IH]; [reflexivity|].
  simpl str_length. lia.
Qed.

Lemma len_startswith (s p : str) : Py.startswith s p = true -> Py.len p <= Py.len s.
Proof.
  intros [t ->]%startswith_spec. rewrite len_append. unfold Py.len. lia.
Qed.

Section LexicalMore.

Context {World : Type} `{!Collaborators World}.

(** X6. The lexical deriver sets [having_sub_domain] from the number of
    dots of [domain]: with two or more dots it is that number minus one,
    otherwise -1; so it is never 0.  This holds also when the deriver
    later raises on the port. *)
Theorem having_sub_domain_counts_dots (r : Run World) :
  features (self (snd (_extract_url_features r))) !! "having_sub_domain"
  = Some (let dots := Z.of_nat (PyStr.count ord_dot (domain (self r))) in
          if 2 <=? dots then dots - 1 else -1)
  /\ features (self (snd (_extract_url_features r))) !! "having_sub_domain" <> Some 0.
Proof.
  assert (H : features (self (snd (_extract_url_features r))) !! "having_sub_domain"
              = Some (let dots := Z.of_nat (PyStr.count ord_dot (domain (self r))) in
                      if 2 <=? dots then dots - 1 else -1)).
  { destruct r as [[u p d h s rs f] w cs]. unfold _extract_url_features.
    run_method. destruct (port p); run_method; lookup_inserts;
      rewrite length_split; cbn zeta; f_equal;
      destruct (Z.gtb_spec (Z.of_nat (S (PyStr.count ord_dot d))) 2),
               (Z.leb_spec 2 (Z.of_nat (PyStr.count ord_dot d))); lia. }
  split; [exact H|]. rewrite H. cbn zeta.
  destruct (Z.leb_spec 2 (Z.of_nat (PyStr.count ord_dot (domain (self r)))));
    intros [=]; lia.
Qed.

(** X7. When the port can be read, the lexical deriver returns and leaves
    a value other than 0 under eight of its keys: 1 or -1 under the seven
    flags, and -1 or a positive count under [having_sub_domain];
    [url_length] is not negative. *)
Theorem lexical_values_range (r : Run World) (pt : option Z) :
  port (parsed_url (self r)) = Ret pt ->
  fst (_extract_url_features r) = Ret tt
  /\ Forall (fun k =>
               features (self (snd (_extract_url_features r))) !! k = Some 1
               \/ features (self (snd (_extract_url_features r))) !! k = Some (-1))
       [ "having_ip_address"; "shortining_service"; "having_at_symbol";
         "double_slash_redirecting"; "prefix_suffix"; "port"; "https_token" ]
  /\ (exists n, features (self (snd (_extract_url_features r))) !! "having_sub_domain"
                = Some n /\ (n = -1 \/ 1 <= n))
  /\ (exists n, features (self (snd (_extract_url_features r))) !! "url_length"
                = Some n /\ 0 <= n).
Proof.
  destruct r as [[u p d h s rs f] w cs]. cbn [self parsed_url]. intros Hp.
  unfold _extract_url_features. run_method. rewrite Hp. run_method.
  split; [reflexivity|]. split.
  { repeat (apply Forall_cons; split;
              [cbn beta; lookup_inserts;
               match goal with |- context [if ?c then _ else _] => destruct c end;
               auto|]).
    constructor. }
  split.
  - eexists. split; [lookup_inserts; reflexivity|].
    destruct (Z.gtb_spec (Z.of_nat (length (Py.split ord_dot d))) 2); lia.
  - eexists. split; [lookup_inserts; reflexivity|]. unfold Py.len. lia.
Qed.

(** X8. After any [fetch_website], the lexical deriver takes [url_length]
    from the URL the object holds then (the URL of the successful request
    when there was one), but [https_token] from the scheme parsed before
    the fetch: a page fetched through the other scheme keeps the token of
    the scheme first asked for. *)
Theorem lexical_features_after_fetch (max_retries : Z) (r : Run World) (pt : option Z) :
  port (parsed_url (self r)) = Ret pt ->
  features (self (snd (_extract_url_features (snd (fetch_website max_retries r)))))
    !! "https_token"
  = Some (if str_eqb (scheme (parsed_url (self r))) "https" then 1 else -1)
  /\ features (self (snd (_extract_url_features (snd (fetch_website max_retries r)))))
       !! "url_length"
     = Some (Py.len (url (self (snd (fetch_website max_retries r)))))
  /\ match fst (fetch_website max_retries r) with
     | Ret true =>
         exists pre rq resp,
           get_calls (new_calls r (snd (fetch_website max_retries r)))
           = pre ++ [(rq, Ret resp)]
           /\ url (self (snd (fetch_website max_retries r))) = req_url rq
     | _ => True
     end.
Proof.
  intros Hp.
  destruct (fetch_website_post max_retries r) as (c & (new & Hc & Hpu & _ & _ & Hres) & Hfst).
  rewrite Hfst. destruct (fetch_website max_retries r) as [res r1]. cbn [fst snd] in *.
  assert (Hp1 : port (parsed_url (self r1)) = Ret pt) by now rewrite Hpu.
  split; [|split].
  - rewrite <- Hpu. clear - Hp1. destruct r1 as [[u p d h s rs f] w cs].
    cbn [self parsed_url] in *. unfold _extract_url_features. run_method.
    rewrite Hp1. run_method. lookup_inserts. reflexivity.
  - clear - Hp1. destruct r1 as [[u p d h s rs f] w cs].
    cbn [self parsed_url] in *. unfold _extract_url_features. run_method.
    rewrite Hp1. run_method. lookup_inserts. reflexivity.
  - destruct c as [|b]; [exact I|].
    destruct Hres as (-> & _ & (pre & rq & resp & Hg & _ & Hu & _) & _).
    rewrite (new_calls_app _ _ _ Hc). exists pre, rq, resp. auto.
Qed.

(** X9. When reading the port raises, [extract_all_features] raises the
    same exception before any lookup: no collaborator is called, the seven
    keys written before the port is read are bound, and every other key
    is as it was. *)
Theorem malformed_port_aborts_extraction (r : Run World) (e : exn) :
  port (parsed_url (self r)) = Raise e ->
  fst (extract_all_features r) = Raise e
  /\ calls (snd (extract_all_features r)) = calls r
  /\ world (snd (extract_all_features r)) = world r
  /\ Forall (fun k => is_Some (features (self (snd (extract_all_features r))) !! k))
       (take 7 lexical_keys)
  /\ Forall (fun k => features (self (snd (extract_all_features r))) !! k
                      = features (self r) !! k)
       (drop 7 lexical_keys ++ structural_keys ++ network_keys ++ ["request_url"]).
Proof.
  destruct r as [[u p d h s rs f] w cs]. cbn [self parsed_url]. intros Hp.
  unfold extract_all_features, _extract_url_features. run_method.
  rewrite Hp. run_method.
  split; [reflexivity|]. split; [reflexivity|]. split; [reflexivity|]. split.
  - cbn [take lexical_keys]. repeat constructor; lookup_inserts; eauto.
  - cbn [drop lexical_keys structural_keys network_keys app].
    repeat constructor; lookup_inserts; reflexivity.
Qed.

(** X10. For a new extractor the lexical deriver sets [url_length] to the
    length of the input when the input starts with [http://] or
    [https://], and to that length plus 7 otherwise; it is at least 7. *)
Theorem url_length_of_new_extractor (raw : str) (w : World) :
  features (self (snd (_extract_url_features (new_run raw w)))) !! "url_length"
  = Some (if Py.startswith_any raw ["http://"; "https://"]%str
          then Py.len raw else Py.len raw + 7)
  /\ 7 <= (if Py.startswith_any raw ["http://"; "https://"]%str
           then Py.len raw else Py.len raw + 7).
Proof.
  split.
  - unfold new_run, init, _extract_url_features. run_method.
    destruct (port (urlparse (normalize_url raw))); run_method; lookup_inserts;
      f_equal; unfold normalize_url;
      destruct (Py.startswith_any raw ["http://"; "https://"]%str); cbn [negb];
      rewrite ?len_append; try reflexivity; change (Py.len "http://") with 7; lia.
  - unfold Py.startswith_any. cbn [existsb]. rewrite orb_false_r.
    destruct (Py.startswith raw "http://") eqn:E1; cbn [orb].
    + apply len_startswith in E1. change (Py.len "http://") with 7 in E1. exact E1.
    + destruct (Py.startswith raw "https://") eqn:E2.
      * apply len_startswith in E2. change (Py.len "https://") with 8 in E2. lia.
      * unfold Py.len. lia.
Qed.

End LexicalMore.

Lemma lexical_values_range_witness :
  port (parsed_url (self Offline.start)) = Ret None
  /\ fst (_extract_url_features Offline.start) = Ret tt.
Proof.
  assert (H : port (parsed_url (self Offline.start)) = Ret None) by reflexivity.
  split; [exact H|]. exact (proj1 (lexical_values_range Offline.start None H)).
Defined.

Lemma lexical_features_after_fetch_witness :
  port (parsed_url (self Online.start)) = Ret None
  /\ features (self (snd (_extract_url_features (snd (fetch_website 2 Online.start)))))
       !! "https_token" = Some (-1).
Proof.
  assert (H : port (parsed_url (self Online.start)) = Ret None) by reflexivity.
  split; [exact H|]. exact (proj1 (lexical_features_after_fetch 2 Online.start None H)).
Defined.

Lemma malformed_port_aborts_extraction_witness :
  port (parsed_url (self malformed_port_run)) = Raise (PyException "ValueError")
  /\ fst (extract_all_features malformed_port_run) = Raise (PyException "ValueError").
Proof.
  assert (H : port (parsed_url (self malformed_port_run))
              = Raise (PyException "ValueError")) by reflexivity.
  split; [exact H|].
  exact (proj1 (malformed_port_aborts_extraction malformed_port_run _ H)).
Defined.

(** ** The structural deriver *)

Section Structural.

Context {World : Type} `{!Collaborators World}.

(** X11. The structural deriver returns for every document, calls no
    collaborator, and leaves 1 or -1 under eight of its keys and the
    number of anchors with an [href] under [links_in_tags]. *)
Theorem structural_values_range (sp : Soup) (r : Run World) :
  fst (_extract_html_features sp r) = Ret tt
  /\ calls (snd (_extract_html_features sp r)) = calls r
  /\ world (snd (_extract_html_features sp r)) = world r
  /\ Forall (fun k =>
               features (self (snd (_extract_html_features sp r))) !! k = Some 1
               \/ features (self (snd (_extract_html_features sp r))) !! k = Some (-1))
       [ "sfh"; "submitting_to_email"; "iframe"; "popupwindow"; "on_mouseover";
         "rightclick"; "url_of_anchor"; "favicon" ]
  /\ features (self (snd (_extract_html_features sp r))) !! "links_in_tags"
     = Some (Z.of_nat (length (find_all_a_href sp))).
Proof.
  destruct r as [[u p d h s rs f] w cs].
  unfold _extract_html_features. run_method.
  split; [reflexivity|]. split; [reflexivity|]. split; [reflexivity|]. split.
  - repeat (apply Forall_cons; split;
              [cbn beta; lookup_inserts;
               match goal with
               | |- context [if ?c then _ else _] => destruct c
               | |- context [match ?c with [] => _ | _ :: _ => _ end] => destruct c
               end; auto|]).
    constructor.
  - lookup_inserts. reflexivity.
Qed.

(** X12. The structural features hang together: [submitting_to_email] is
    1 only if [sfh] is 1 (a form that mails is a form), and
    [url_of_anchor] is 1 only if [links_in_tags] is at least 1. *)
Theorem structural_values_consistent (sp : Soup) (r : Run World) :
  (features (self (snd (_extract_html_features sp r))) !! "submitting_to_email"
     = Some (-1)
   \/ features (self (snd (_extract_html_features sp r))) !! "sfh" = Some 1)
  /\ (features (self (snd (_extract_html_features sp r))) !! "url_of_anchor"
        = Some (-1)
      \/ exists n, features (self (snd (_extract_html_features sp r))) !! "links_in_tags"
                   = Some n /\ 1 <= n).
Proof.
  destruct r as [[u p d h s rs f] w cs].
  unfold _extract_html_features. run_method. split.
  - lookup_inserts. destruct (find_all_form sp) as [|form forms]; auto.
  - lookup_inserts. destruct (find_all_a_href sp) as [|href hrefs]; auto.
    right. eexists. split; [reflexivity|]. cbn [length]. lia.
Qed.

End Structural.

(** ** More on the network deriver *)

(** Case analysis on the innermost test the run is stuck on. *)
Ltac case_head :=
  match goal with
  | |- context [match ?x with _ => _ end] =>
      lazymatch x with
      | context [match _ with _ => _ end] => fail
      | _ => destruct x eqn:?
      end
  end.

Ltac run_lookups := cbv [do_whois do_tls do_now]; run_method.

Section NetworkMore.

Context {World : Type} `{!Collaborators World}.

Lemma lookups_steps (r : Run World) :
  _perform_additional_lookups r
  = redirect_block
      (snd (whois_block
              {| self := set_features (network_defaults (features (self r))) (self r);
                 world := world r; calls := calls r |})).
Proof.
  unfold _perform_additional_lookups, bind, update. fold whois_block redirect_block.
  destruct (whois_block _) as [[[]|e] r2] eqn:E; [reflexivity|].
  exfalso. unfold whois_block, try_except, set_feature, update in E.
  destruct (whois_dns_tls _) as [[[]|e'] r3]; discriminate.
Qed.

Lemma redirect_block_spec (r : Run World) :
  redirect_block r
  = (Ret tt,
     {| self :=
          match response (self r) with
          | Some resp =>
              set_features
                (<["redirect" := if Z.of_nat (length (history resp)) >? 0 then 1 else -1]>
                   (features (self r))) (self r)
          | None => self r
          end;
        world := world r; calls := calls r |}).
Proof.
  destruct r as [[u p d h s rs f] w cs]. unfold redirect_block, redirect_check.
  run_method. destruct rs; reflexivity.
Qed.

Lemma whois_block_writes :
  preserves (World := World)
    (writes ["age_of_domain"; "domain_registration_length"; "dnsrecord"; "sslfinal_state"])
    whois_block.
Proof. unfold whois_block, whois_dns_tls, domain_age_features. frame_writes. Qed.

End NetworkMore.

Lemma days_gt_365 (delta : Z) : (days delta >? 365) = (days_366 <=? delta).
Proof.
  unfold days, days_366.
  destruct (Z.gtb_spec (delta / 86400000000) 365) as [H|H],
           (Z.leb_spec (366 * 86400000000) delta) as [H'|H']; try reflexivity; exfalso.
  - assert (delta / 86400000000 < 366) by (apply Z.div_lt_upper_bound; lia). lia.
  - assert (366 <= delta / 86400000000) by (apply Z.div_le_lower_bound; lia). lia.
Qed.

Lemma min_from_naive (c : Z) (ts : list Z) :
  min_from (DateTime c false) ((fun t => DateTime t false) <$> ts)
  = Ret (DateTime (foldl Z.min c ts) false).
Proof.
  revert c. induction ts as [|t ts IH]; intros c; [reflexivity|].
  cbn [fmap list_fmap min_from date_lt Bool.eqb foldl].
  destruct (Z.ltb_spec t c).
  - rewrite IH. now rewrite Z.min_r by lia.
  - rewrite IH. now rewrite Z.min_l by lia.
Qed.

Lemma foldl_min_least (c : Z) (ts : list Z) :
  foldl Z.min c ts ∈ c :: ts /\ Forall (Z.le (foldl Z.min c ts)) (c :: ts).
Proof.
  revert c. induction ts as [|t ts IH]; intros c; cbn [foldl].
  - split; [left|repeat constructor; lia].
  - destruct (IH (Z.min c t)) as [Hin Hle]. split.
    + apply elem_of_cons in Hin as [Hin|Hin]; [|right; now right].
      rewrite Hin. destruct (Z.min_spec c t) as [[_ ->]|[_ ->]]; [left|right; left].
    + apply Forall_cons in Hle as [H1 H2].
      apply Forall_cons. split; [lia|]. apply Forall_cons. split; [lia|exact H2].
Qed.

Section NetworkValues.

Context {World : Type} `{!Collaborators World}.

(** The age features when the record gives a naive datetime to compute
    from. *)
Lemma age_from_date (r : Run World) (we : WhoisEntry) (w1 w2 : World) (t now : Z) :
  whois_whois (url (self r)) (world r) = (Ret we, w1) ->
  creation_date_truthy (creation_date we) = true ->
  effective_creation_date (creation_date we) = Ret (DateTime t false) ->
  datetime_now w1 = (now, w2) ->
  features (self (snd (_perform_additional_lookups r))) !! "age_of_domain"
  = Some (if days_366 <=? now - t then 1 else -1)
  /\ features (self (snd (_perform_additional_lookups r))) !! "domain_registration_length"
     = Some 1.
Proof.
  intros Hw Ht Hd Hn. rewrite lookups_steps, redirect_block_spec.
  destruct r as [[u p d h s rs f] w cs]. cbn [self url world] in Hw.
  unfold whois_block, whois_dns_tls, domain_age_features. run_lookups.
  rewrite Hw. run_lookups. rewrite Ht.
  unfold effective_creation_date in Hd.
  destruct (creation_date we) as [|dt|l]; [discriminate Ht| |]; run_lookups.
  - injection Hd as ->. run_lookups. rewrite Hn. run_lookups.
    rewrite days_gt_365.
    repeat (case_head; run_lookups); split; lookup_inserts; reflexivity.
  - rewrite Hd. run_lookups. rewrite Hn. run_lookups.
    rewrite days_gt_365.
    repeat (case_head; run_lookups); split; lookup_inserts; reflexivity.
Qed.

End NetworkValues.

Section NetworkExtras.

Context {World : Type} `{!Collaborators World}.

(** X13. After [_perform_additional_lookups] the six keys that no lookup
    writes are bound to 0, whatever was under them before and whatever
    the lookups do. *)
Theorem reserved_keys_stay_zero (r : Run World) :
  Forall (fun k => features (self (snd (_perform_additional_lookups r))) !! k = Some 0)
    reserved_keys.
Proof.
  rewrite lookups_steps, redirect_block_spec. cbn [snd self].
  set (r1 := {| self := set_features (network_defaults (features (self r))) (self r);
                world := world r; calls := calls r |}).
  destruct (whois_block_writes r1) as (_&_&_&_&_&_&Hf&_).
  assert (H0 : forall k, k ∈ reserved_keys -> features (self (snd (whois_block r1))) !! k = Some 0).
  { intros k Hk. rewrite Hf.
    - unfold r1. cbn [self features set_features]. rewrite network_defaults_lookup.
      rewrite decide_True; [reflexivity|].
      revert k Hk. apply Forall_forall. unfold reserved_keys.
      repeat constructor; apply list_elem_of_In; cbn; tauto.
    - revert k Hk. apply Forall_forall. unfold reserved_keys.
      repeat constructor; intros Hin; apply list_elem_of_In in Hin; cbn in Hin;
        intuition discriminate. }
  apply Forall_forall. intros k Hk.
  destruct (response (self (snd (whois_block r1)))); [|now apply H0].
  cbn [features set_features]. rewrite lookup_insert_ne; [now apply H0|].
  intros <-. apply list_elem_of_In in Hk. cbn in Hk. intuition discriminate.
Qed.

(** X14. [redirect] depends on the stored response only, not on WHOIS or
    TLS: 0 when there is no response, 1 when the response followed a
    redirect, -1 when it did not. *)
Theorem redirect_depends_on_response_only (r : Run World) :
  features (self (snd (_perform_additional_lookups r))) !! "redirect"
  = Some (match response (self r) with
          | Some resp => if Z.of_nat (length (history resp)) >? 0 then 1 else -1
          | None => 0
          end).
Proof.
  rewrite lookups_steps, redirect_block_spec. cbn [snd self].
  set (r1 := {| self := set_features (network_defaults (features (self r))) (self r);
                world := world r; calls := calls r |}).
  destruct (whois_block_writes r1) as (_&_&_&_&_&Hr&Hf&_).
  rewrite Hr. unfold r1 at 1. cbn [self response set_features].
  destruct (response (self r)) as [resp|].
  - cbn [features set_features]. now rewrite lookup_insert_eq.
  - rewrite Hf.
    + unfold r1. cbn [self features set_features]. rewrite network_defaults_lookup.
      rewrite decide_True; [reflexivity|]. apply list_elem_of_In. cbn. tauto.
    + intros Hin. apply list_elem_of_In in Hin. cbn in Hin. intuition discriminate.
Qed.

(** X15. After [_perform_additional_lookups], [sslfinal_state] is 1 or -1,
    never the 0 it started from.  It is 1 only if WHOIS answered and a TLS
    handshake was then made - these are the only two calls - and then
    [dnsrecord] is 1 or -1 as well. *)
Theorem sslfinal_state_never_zero (r : Run World) :
  (features (self (snd (_perform_additional_lookups r))) !! "sslfinal_state" = Some 1
   /\ (features (self (snd (_perform_additional_lookups r))) !! "dnsrecord" = Some 1
       \/ features (self (snd (_perform_additional_lookups r))) !! "dnsrecord" = Some (-1))
   /\ exists hostname,
        new_calls r (snd (_perform_additional_lookups r))
        = [CallWhois (url (self r)); CallTls hostname])
  \/ features (self (snd (_perform_additional_lookups r))) !! "sslfinal_state" = Some (-1).
Proof.
  rewrite lookups_steps, redirect_block_spec.
  destruct r as [[u p d h s rs f] w cs].
  unfold whois_block, whois_dns_tls, domain_age_features, new_calls. run_lookups.
  repeat (case_head; run_lookups).
  all: try (right; lookup_inserts; reflexivity).
  all: left; split; [lookup_inserts; reflexivity|].
  all: split; [lookup_inserts; auto|].
  all: eexists; rewrite <- List.app_assoc, drop_app_length; reflexivity.
Qed.

(** X16. With a WHOIS record that has one naive creation date,
    [age_of_domain] is 1 when at least 366 whole days lie between that
    date and now and -1 otherwise (365 days and a half are not enough, a
    date in the future gives -1), and [domain_registration_length] is 1;
    the name servers and the TLS handshake, done later, do not change
    them. *)
Theorem age_of_domain_boundary (r : Run World) (we : WhoisEntry)
    (w1 w2 : World) (t now : Z) :
  whois_whois (url (self r)) (world r) = (Ret we, w1) ->
  creation_date we = OneDate (DateTime t false) ->
  datetime_now w1 = (now, w2) ->
  features (self (snd (_perform_additional_lookups r))) !! "age_of_domain"
  = Some (if 366 * 86400000000 <=? now - t then 1 else -1)
  /\ features (self (snd (_perform_additional_lookups r))) !! "domain_registration_length"
     = Some 1.
Proof.
  intros Hw Hc Hn. apply (age_from_date r we w1 w2 t now Hw); [| |exact Hn].
  - now rewrite Hc.
  - now rewrite Hc.
Qed.

(** X17. With a WHOIS record that lists several naive creation dates, the
    age is computed from the earliest of them. *)
Theorem age_uses_earliest_date (r : Run World) (we : WhoisEntry)
    (w1 w2 : World) (t0 : Z) (ts : list Z) (now : Z) :
  whois_whois (url (self r)) (world r) = (Ret we, w1) ->
  creation_date we = DateList ((fun t => DateTime t false) <$> t0 :: ts) ->
  datetime_now w1 = (now, w2) ->
  exists m,
    m ∈ t0 :: ts
    /\ Forall (Z.le m) (t0 :: ts)
    /\ features (self (snd (_perform_additional_lookups r))) !! "age_of_domain"
       = Some (if 366 * 86400000000 <=? now - m then 1 else -1).
Proof.
  intros Hw Hc Hn. exists (foldl Z.min t0 ts).
  destruct (foldl_min_least t0 ts) as [Hin Hle].
  split; [exact Hin|]. split; [exact Hle|].
  apply (age_from_date r we w1 w2 _ now Hw); [| |exact Hn].
  - now rewrite Hc.
  - rewrite Hc. cbn [effective_creation_date fmap list_fmap py_min].
    apply min_from_naive.
Qed.

(** X18. With a WHOIS record without creation date, [age_of_domain] and
    [domain_registration_length] stay 0, [dnsrecord] is set from the name
    servers, and the TLS handshake is made with the authority up to its
    first colon; [sslfinal_state] is 1 or -1 as the handshake goes. *)
Theorem undated_record (r : Run World) (we : WhoisEntry) (w1 : World) :
  whois_whois (url (self r)) (world r) = (Ret we, w1) ->
  creation_date_truthy (creation_date we) = false ->
  features (self (snd (_perform_additional_lookups r))) !! "age_of_domain" = Some 0
  /\ features (self (snd (_perform_additional_lookups r))) !! "domain_registration_length"
     = Some 0
  /\ features (self (snd (_perform_additional_lookups r))) !! "dnsrecord"
     = Some (if name_servers_truthy (name_servers we) then 1 else -1)
  /\ new_calls r (snd (_perform_additional_lookups r))
     = [ CallWhois (url (self r));
         CallTls (hd ""%str (Py.split ord_colon (netloc (parsed_url (self r))))) ]
  /\ features (self (snd (_perform_additional_lookups r))) !! "sslfinal_state"
     = Some (match fst (tls_handshake
                          (hd ""%str (Py.split ord_colon (netloc (parsed_url (self r))))) w1) with
             | Ret _ => 1
             | Raise _ => -1
             end).
Proof.
  intros Hw Ht. rewrite lookups_steps, redirect_block_spec.
  destruct r as [[u p d h s rs f] w cs]. cbn [self url world parsed_url] in *.
  unfold whois_block, whois_dns_tls, domain_age_features, new_calls. run_lookups.
  rewrite Hw. run_lookups. rewrite Ht. run_lookups.
  destruct (tls_handshake (hd ""%str (Py.split ord_colon (netloc p))) w1) as [[[]|e] w2];
    run_lookups; destruct rs; run_lookups;
    rewrite <- List.app_assoc, drop_app_length;
    repeat split; lookup_inserts; rewrite ?network_defaults_lookup; reflexivity.
Qed.

(** X19. A creation date with a time zone cannot be subtracted from the
    naive [datetime.now()]: the [TypeError] is caught by the same handler
    as a WHOIS failure, so [sslfinal_state] is -1 without a TLS handshake,
    and [dnsrecord] and the age features stay 0. *)
Theorem zoned_creation_date (r : Run World) (we : WhoisEntry) (w1 : World) (t : Z) :
  whois_whois (url (self r)) (world r) = (Ret we, w1) ->
  creation_date we = OneDate (DateTime t true) ->
  features (self (snd (_perform_additional_lookups r))) !! "sslfinal_state" = Some (-1)
  /\ features (self (snd (_perform_additional_lookups r))) !! "dnsrecord" = Some 0
  /\ features (self (snd (_perform_additional_lookups r))) !! "age_of_domain" = Some 0
  /\ new_calls r (snd (_perform_additional_lookups r)) = [CallWhois (url (self r))].
Proof.
  intros Hw Hc. rewrite lookups_steps, redirect_block_spec.
  destruct r as [[u p d h s rs f] w cs]. cbn [self url world parsed_url] in *.
  unfold whois_block, whois_dns_tls, domain_age_features, new_calls. run_lookups.
  rewrite Hw. run_lookups. rewrite Hc. cbn [creation_date_truthy]. run_lookups.
  destruct (datetime_now w1) as [now w2]. run_lookups.
  destruct rs; run_lookups; rewrite drop_app_length;
    repeat split; lookup_inserts; rewrite ?network_defaults_lookup; reflexivity.
Qed.

End NetworkExtras.

Lemma age_of_domain_boundary_witness :
  features (self (snd (@_perform_additional_lookups nat dated
                         (@new_run nat dated "example.com" 0%nat))))
    !! "age_of_domain" = Some (-1).
Proof.
  exact (proj1 (@age_of_domain_boundary nat dated
                  (@new_run nat dated "example.com" 0%nat) _ _ _ _ _
                  eq_refl eq_refl eq_refl)).
Defined.

Lemma age_uses_earliest_date_witness :
  exists m,
    m ∈ [1100000000000000; 1000000000000000]
    /\ Forall (Z.le m) [1100000000000000; 1000000000000000]
    /\ features (self (snd (_perform_additional_lookups Online.start))) !! "age_of_domain"
       = Some (if 366 * 86400000000 <=? 1700000000000000 - m then 1 else -1).
Proof.
  exact (age_uses_earliest_date Online.start Online.record 0%nat 0%nat
           1100000000000000 [1000000000000000] 1700000000000000
           eq_refl eq_refl eq_refl).
Defined.

Lemma undated_record_witness :
  features (self (snd (@_perform_additional_lookups nat undated
                         (@new_run nat undated "example.com" 0%nat))))
    !! "age_of_domain" = Some 0.
Proof.
  exact (proj1 (@undated_record nat undated
                  (@new_run nat undated "example.com" 0%nat) _ _ eq_refl eq_refl)).
Defined.

Lemma zoned_creation_date_witness :
  features (self (snd (@_perform_additional_lookups nat zoned
                         (@new_run nat zoned "example.com" 0%nat))))
    !! "sslfinal_state" = Some (-1).
Proof.
  exact (proj1 (@zoned_creation_date nat zoned
                  (@new_run nat zoned "example.com" 0%nat) _ _ _ eq_refl eq_refl)).
Defined.

(** ** The whole extraction *)

Lemma derived_keys_in_order (k : string) : k ∈ derived_keys -> k ∈ feature_order.
Proof.
  revert k. apply Forall_forall. unfold derived_keys, lexical_keys, structural_keys,
    network_keys. cbn [app].
  repeat constructor; apply list_elem_of_In; cbn; tauto.
Qed.

Section Extraction.

Context {World : Type} `{!Collaborators World}.

Lemma extract_all_features_writes :
  preserves (World := World) (writes derived_keys) extract_all_features.
Proof.
  unfold extract_all_features, _extract_url_features, _extract_html_features,
    _perform_additional_lookups, whois_dns_tls, domain_age_features, redirect_check,
    derived_keys, lexical_keys, structural_keys, network_keys.
  cbn [app]. frame_writes.
  apply preserves_update. intros o.
  eapply writes_weaken; [|apply writes_network_defaults].
  intros k Hk. apply list_elem_of_In. apply list_elem_of_In in Hk.
  cbn in *. tauto.
Qed.

Lemma lexical_keys_bound (r : Run World) (pt : option Z) (k : string) :
  port (parsed_url (self r)) = Ret pt -> k ∈ lexical_keys ->
  fst (_extract_url_features r) = Ret tt
  /\ is_Some (features (self (snd (_extract_url_features r))) !! k).
Proof.
  destruct r as [[u p d h s rs f] w cs]. cbn [self parsed_url]. intros Hp Hk.
  unfold _extract_url_features. run_method. rewrite Hp. run_method.
  split; [reflexivity|]. revert k Hk. apply Forall_forall. unfold lexical_keys.
  repeat constructor; lookup_inserts; eauto.
Qed.

Lemma structural_keys_bound (sp : Soup) (r : Run World) (k : string) :
  k ∈ structural_keys ->
  fst (_extract_html_features sp r) = Ret tt
  /\ is_Some (features (self (snd (_extract_html_features sp r))) !! k).
Proof.
  destruct r as [[u p d h s rs f] w cs]. intros Hk.
  unfold _extract_html_features. run_method.
  split; [reflexivity|]. revert k Hk. apply Forall_forall. unfold structural_keys.
  repeat constructor; lookup_inserts; eauto.
Qed.

(** With a parsed page and a readable port, [extract_all_features]
    returns the dictionary it has built, and every derived key is bound
    in it. *)
Lemma extract_all_features_binds (r : Run World) (pt : option Z) (sp : Soup) :
  port (parsed_url (self r)) = Ret pt -> soup (self r) = Some sp ->
  fst (extract_all_features r) = Ret (features (self (snd (extract_all_features r))))
  /\ forall k, k ∈ derived_keys ->
       is_Some (features (self (snd (extract_all_features r))) !! k).
Proof.
  intros Hp Hs. unfold extract_all_features, bind, get.
  pose proof (_extract_url_features_writes r) as W1.
  pose proof (fun k => lexical_keys_bound r pt k Hp) as B1.
  destruct (_extract_url_features r) as [[[]|e] r1]; cbn [fst snd] in *.
  2:{ destruct (B1 "url_length") as [B _]; [apply list_elem_of_In; cbn; tauto|].
      discriminate B. }
  destruct W1 as (_&_&_&_&Hs1&_&_&_). rewrite Hs1, Hs.
  pose proof (_extract_html_features_writes sp r1) as W2.
  pose proof (structural_keys_bound sp r1) as B2.
  destruct (_extract_html_features sp r1) as [[[]|e] r2]; cbn [fst snd] in *.
  2:{ destruct (B2 "sfh") as [B _]; [apply list_elem_of_In; cbn; tauto|].
      discriminate B. }
  destruct W2 as (_&_&_&_&_&_&_&Hm2).
  pose proof (_perform_additional_lookups_writes r2) as W3.
  pose proof (_perform_additional_lookups_returns r2) as R3.
  pose proof (network_keys_bound r2) as B3.
  destruct (_perform_additional_lookups r2) as [[[]|e] r3]; cbn [fst snd] in *;
    [|discriminate R3].
  destruct W3 as (_&_&_&_&_&_&_&Hm3).
  split; [reflexivity|]. intros k Hk. unfold derived_keys in Hk.
  apply elem_of_app in Hk as [Hk|Hk]; [|apply elem_of_app in Hk as [Hk|Hk]].
  - apply Hm3, Hm2. now apply B1.
  - apply Hm3. now apply B2.
  - now apply B3.
Qed.

(** X20. No deriver computes [request_url]: on a new extractor, after
    [fetch_website] and [extract_all_features], whatever they return, the
    key is absent and slot 12 of the vector is 0. *)
Theorem request_url_never_set (raw : str) (max_retries : Z) (w : World) :
  features (self (snd (extract_all_features
             (snd (fetch_website max_retries (new_run raw w)))))) !! "request_url" = None
  /\ feature_order !! 12%nat = Some "request_url"
  /\ get_feature_vector
       (features (self (snd (extract_all_features
          (snd (fetch_website max_retries (new_run raw w))))))) !! 12%nat = Some 0.
Proof.
  assert (H : features (self (snd (extract_all_features
                (snd (fetch_website max_retries (new_run raw w)))))) !! "request_url"
              = None).
  { destruct (extract_all_features_writes (snd (fetch_website max_retries (new_run raw w))))
      as (_&_&_&_&_&_&Hf&_).
    rewrite Hf.
    - destruct (fetch_website_post max_retries (new_run raw w))
        as (c & (new & _ & _ & _ & Hfe & _) & _).
      rewrite Hfe. apply lookup_empty.
    - intros Hin. apply list_elem_of_In in Hin. cbn in Hin. intuition discriminate. }
  split; [exact H|]. split; [reflexivity|].
  rewrite (get_feature_vector_lookup _ 12 "request_url" eq_refl), H. reflexivity.
Qed.

(** X21. When [fetch_website] has returned [True] on a new extractor whose
    port can be read, [extract_all_features] returns the feature
    dictionary of the object, and its keys are exactly the 29 derived
    keys: every name of the feature order except [request_url]. *)
Theorem extraction_binds_derived_keys (raw : str) (max_retries : Z) (w : World)
    (pt : option Z) :
  fst (fetch_website max_retries (new_run raw w)) = Ret true ->
  port (urlparse (normalize_url raw)) = Ret pt ->
  fst (extract_all_features (snd (fetch_website max_retries (new_run raw w))))
  = Ret (features (self (snd (extract_all_features
                                (snd (fetch_website max_retries (new_run raw w)))))))
  /\ dom (features (self (snd (extract_all_features
                                (snd (fetch_website max_retries (new_run raw w)))))))
     = list_to_set derived_keys
  /\ length derived_keys = 29%nat
  /\ NoDup derived_keys.
Proof.
  intros Htrue Hp.
  destruct (fetch_website_post max_retries (new_run raw w))
    as (c & (new & _ & Hpu & _ & Hfe & Hres) & Hfst).
  rewrite Hfst in Htrue.
  destruct c as [|b]; [discriminate|].
  destruct Hres as (_ & _ & _ & [sp Hsp]).
  set (r1 := snd (fetch_website max_retries (new_run raw w))) in *.
  assert (Hp1 : port (parsed_url (self r1)) = Ret pt) by (rewrite Hpu; exact Hp).
  destruct (extract_all_features_binds r1 pt sp Hp1 Hsp) as [Hret Hb].
  split; [exact Hret|]. split; [|split; [reflexivity|]].
  - apply set_eq. intros k. rewrite elem_of_dom, elem_of_list_to_set. split.
    + intros Hk. destruct (decide (k ∈ derived_keys)) as [|Hn]; [assumption|].
      destruct (extract_all_features_writes r1) as (_&_&_&_&_&_&Hf&_).
      rewrite (Hf k Hn), Hfe in Hk. destruct Hk as [v Hv].
      exfalso. revert Hv. change (@lookup _ _ (gmap string Z) _ k ∅ <> Some v).
      now rewrite lookup_empty.
    + apply Hb.
  - apply (bool_decide_unpack _). vm_compute. exact I.
Qed.

End Extraction.

Lemma extraction_binds_derived_keys_witness :
  fst (fetch_website 2 (new_run "example.com" 0%nat)) = Ret true
  /\ dom (features (self (snd (extract_all_features
                                (snd (fetch_website 2 (new_run "example.com" 0%nat)))))))
     = list_to_set derived_keys.
Proof.
  assert (H : fst (fetch_website 2 (new_run "example.com" 0%nat)) = Ret true)
    by (vm_compute; reflexivity).
  split; [exact H|].
  exact (proj1 (proj2 (extraction_binds_derived_keys "example.com" 2 0%nat None
                         H eq_refl))).
Defined.

(** ** More on the assembler *)

Lemma feature_order_NoDup : NoDup feature_order.
Proof. apply (bool_decide_unpack _). vm_compute. exact I. Qed.

(** X22. The feature order has no duplicate, and binding the [i]-th
    feature name in the dictionary changes slot [i] of the vector and no
    other slot. *)
Theorem get_feature_vector_insert (features : gmap string Z) (i : nat)
    (k : string) (v : Z) :
  feature_order !! i = Some k ->
  NoDup feature_order
  /\ get_feature_vector (<[k := v]> features) = <[i := v]> (get_feature_vector features).
Proof.
  intros Hi. split; [exact feature_order_NoDup|].
  apply list_eq. intros j. unfold get_feature_vector.
  destruct (decide (j = i)) as [->|Hne].
  - rewrite list_lookup_insert_eq by (rewrite length_fmap; now apply lookup_lt_Some in Hi).
    rewrite list_lookup_fmap, Hi. cbn. now rewrite lookup_insert_eq.
  - rewrite list_lookup_insert_ne by auto. rewrite !list_lookup_fmap.
    destruct (feature_order !! j) as [k'|] eqn:Hj; [|reflexivity].
    cbn. rewrite lookup_insert_ne; [reflexivity|].
    intros ->. apply Hne. exact (NoDup_lookup _ _ _ _ feature_order_NoDup Hj Hi).
Qed.

(** X23. The vector does not tell a key bound to 0 from an absent key:
    removing a key that is bound to 0 leaves the vector as it is. *)
Theorem get_feature_vector_forgets_zero (features : gmap string Z) (k : string) :
  features !! k = Some 0 ->
  get_feature_vector (delete k features) = get_feature_vector features.
Proof.
  intros Hk. unfold get_feature_vector. apply list_eq. intros j.
  rewrite !list_lookup_fmap. destruct (feature_order !! j) as [k'|]; [|reflexivity].
  cbn. destruct (decide (k = k')) as [->|Hne].
  - now rewrite lookup_delete_eq, Hk.
  - now rewrite lookup_delete_ne.
Qed.

Lemma get_feature_vector_insert_witness :
  feature_order !! 7%nat = Some "sslfinal_state"
  /\ get_feature_vector (<["sslfinal_state" := -1]> ∅)
     = <[7%nat := -1]> (get_feature_vector ∅).
Proof.
  assert (H : feature_order !! 7%nat = Some "sslfinal_state") by reflexivity.
  split; [exact H|]. exact (proj2 (get_feature_vector_insert ∅ 7 _ (-1) H)).
Defined.

Lemma get_feature_vector_forgets_zero_witness :
  ({[ "redirect" := 0 ]} : gmap string Z) !! "redirect" = Some 0
  /\ get_feature_vector (delete "redirect" {[ "redirect" := 0 ]})
     = get_feature_vector {[ "redirect" := 0 ]}.
Proof.
  assert (H : ({[ "redirect" := 0 ]} : gmap string Z) !! "redirect" = Some 0)
    by reflexivity.
  split; [exact H|]. exact (get_feature_vector_forgets_zero _ _ H).
Defined.

(** ** The endpoint *)

Lemma lstrip_all_space (s : str) : PyStr.all_space s = true -> PyStr.lstrip s = ""%str.
Proof.
  induction s as [|c s IH]; [reflexivity|]. cbn [PyStr.all_space PyStr.lstrip].
  intros [Hc Hs]%andb_prop. rewrite Hc. auto.
Qed.

Section EndpointFacts.

Context {World : Type} `{!Collaborators World} `{!App World}.





End EndpointFacts.

(** X26. When the [url] field of the form is missing, empty or white
    space only, [analyze] answers 400 "URL is required" without making an
    extractor or calling anything. *)
Theorem analyze_requires_url {World} `{!Collaborators World} `{!App World}
    (form_url : option str) (w : World) :
  PyStr.all_space (default ""%str form_url) = true ->
  analyze form_url w = (Ret UrlRequired, w, [])
  /\ status UrlRequired = 400.
Proof.
  intros Hs. unfold analyze, submitted_url, PyStr.strip.
  rewrite (lstrip_all_space _ Hs). split; reflexivity.
Qed.

Lemma analyze_requires_url_witness :
  PyStr.all_space (default ""%str (Some "   "%str)) = true
  /\ @analyze nat Online.collaborators two_models (Some "   "%str) 0%nat
     = (Ret UrlRequired, 0%nat, []).
Proof.
  assert (H : PyStr.all_space (default ""%str (Some "   "%str)) = true) by reflexivity.
  split; [exact H|].
  exact (proj1 (@analyze_requires_url nat Online.collaborators two_models _ _ H)).
Defined.

(** The endpoint on the online world with two models: the page is fetched
    at the second attempt, the first model gives its label and the second,
    which raises, gives -1; the answer carries the URL as submitted. *)
Example analyze_online :
  exists fs,
    @analyze nat Online.collaborators two_models (Some " example.com "%str) 0%nat
    = (Ret (Success "example.com" {[ "random_forest" := 1; "xgboost" := -1 ]} fs),
       2%nat,
       [ CallHead {| req_url := "http://example.com"; req_verify := true |};
         CallGet {| req_url := "http://example.com"; req_verify := true |}
                 (Raise (RequestException SSLError));
         CallHead {| req_url := "http://example.com"; req_verify := false |};
         CallGet {| req_url := "http://example.com"; req_verify := false |}
                 (Ret {| status_code := 200; text := Online.page; history := [] |});
         CallWhois "http://example.com";
         CallTls "example.com" ])
    /\ fs !! "sfh" = Some 1 /\ fs !! "redirect" = Some (-1) /\ size fs = 29%nat.
Proof.
  eexists. split; [vm_compute; reflexivity|]. vm_compute. auto.
Qed.

(** ** [WebsiteAnalyzer] *)

Lemma reset_lookups_lookup (f : gmap string Z) (k : string) :
  WA.reset_lookups f !! k = if decide (k ∈ looked_up_keys) then Some 0 else f !! k.
Proof.
  unfold WA.reset_lookups. change (foldl _ f _ !! k = if decide (k ∈ looked_up_keys) then Some 0 else f !! k) with
    (foldl (fun m k0 => <[k0:=0]> m) f looked_up_keys !! k
     = if decide (k ∈ looked_up_keys) then Some 0 else f !! k).
  generalize looked_up_keys as K. intros K. revert f.
  induction K as [|x K IH]; intros f; cbn [foldl].
  - case_decide as H; [inversion H|reflexivity].
  - rewrite IH. case_decide as H1; case_decide as H2; try reflexivity.
    + exfalso. apply H2. now right.
    + apply elem_of_cons in H2 as [->|H2]; [|contradiction].
      now rewrite lookup_insert_eq.
    + rewrite lookup_insert_ne; [reflexivity|].
      intros ->. apply H2. now left.
Qed.

Section AnalyzerFacts.

Context {World : Type} `{!Collaborators World}.

(** X27. [WebsiteAnalyzer.fetch_website] sends one GET, to [self.url] and
    with certificate verification, and nothing else.  What it returns is
    fixed by the outcome [x] of that GET: [True] after a success status
    and a parsed page; [False] after an error status, and after a request
    exception of the client or of the parser; any other exception, of the
    client or of the parser, reaches the caller - unlike
    [FeatureExtractor.fetch_website], which returns [False] then.  The
    object holds the page after [True]; [soup] is unchanged otherwise. *)
Theorem wa_fetch_website_spec (r : Run World) :
  exists x,
    calls (snd (WA.fetch_website r))
    = calls r ++ [CallGet {| req_url := url (self r); req_verify := true |} x]
    /\ x = fst (session_get {| req_url := url (self r); req_verify := true |} (world r))
    /\ url (self (snd (WA.fetch_website r))) = url (self r)
    /\ features (self (snd (WA.fetch_website r))) = features (self r)
    /\ fst (WA.fetch_website r)
       = match x with
         | Ret resp =>
             match raise_for_status resp with
             | Ret _ =>
                 match BeautifulSoup (text resp) with
                 | Ret _ => Ret true
                 | Raise e => if is_RequestException e then Ret false else Raise e
                 end
             | Raise _ => Ret false
             end
         | Raise e => if is_RequestException e then Ret false else Raise e
         end
    /\ match fst (WA.fetch_website r) with
       | Ret true =>
           exists resp,
             x = Ret resp /\ raise_for_status resp = Ret tt
             /\ html_content (self (snd (WA.fetch_website r))) = Some (text resp)
             /\ exists sp, BeautifulSoup (text resp) = Ret sp
                           /\ soup (self (snd (WA.fetch_website r))) = Some sp
       | Ret false =>
           attempt_failed ({| req_url := url (self r); req_verify := true |}, x) = true
           /\ soup (self (snd (WA.fetch_website r))) = soup (self r)
       | Raise e =>
           is_RequestException e = false
           /\ (x = Raise e
               \/ exists resp, x = Ret resp /\ BeautifulSoup (text resp) = Raise e)
           /\ soup (self (snd (WA.fetch_website r))) = soup (self r)
       end.
Proof.
  destruct r as [[u p d h s rs f] w cs].
  unfold WA.fetch_website. cbv [do_get]. run_method.
  set (rq := {| req_url := u; req_verify := true |}).
  destruct (session_get rq w) as [[resp|e] w1]; run_method.
  - destruct (raise_for_status resp) as [[]|e] eqn:Hst; run_method.
    + destruct (BeautifulSoup (text resp)) as [sp|e] eqn:Hsp; run_method.
      * exists (Ret resp). rewrite Hst, Hsp. repeat split; eauto 7.
      * destruct (is_RequestException e) eqn:He; run_method;
          exists (Ret resp); rewrite Hst, Hsp, He; repeat split; eauto;
          unfold attempt_failed, http_failed, parser_rejected; cbn [fst snd];
          rewrite Hst, Hsp; reflexivity.
    + assert (He : is_RequestException e = true).
      { unfold raise_for_status in Hst.
        destruct ((400 <=? status_code resp) && (status_code resp <? 600));
          [now injection Hst as <-|discriminate]. }
      rewrite He. run_method. exists (Ret resp). rewrite Hst. repeat split; auto.
      unfold attempt_failed, http_failed. cbn [fst snd]. now rewrite Hst.
  - destruct (is_RequestException e) eqn:He; run_method;
      exists (Raise e); rewrite He; repeat split; auto.
Qed.

(** X28. When there is no response (the fetch failed), reading its
    redirect history raises inside the single [try] of
    [WebsiteAnalyzer.perform_additional_lookups], and the handler resets
    what WHOIS and TLS had found: the method returns with the five
    looked-up keys at 0, whatever the lookups answered. *)
Theorem wa_lookups_without_response (r : Run World) :
  response (self r) = None ->
  fst (WA.perform_additional_lookups r) = Ret tt
  /\ Forall (fun k => features (self (snd (WA.perform_additional_lookups r))) !! k
                      = Some 0)
       looked_up_keys.
Proof.
  destruct r as [[u p d h s rs f] w cs]. cbn [self response]. intros ->.
  unfold WA.perform_additional_lookups, WA.domain_age_features, WA.tls_check,
    WA.redirect_feature.
  run_lookups. repeat (case_head; run_lookups).
  all: split; [reflexivity|].
  all: unfold looked_up_keys; repeat (apply Forall_cons; split;
         [cbn beta; rewrite reset_lookups_lookup; reflexivity|]).
  all: constructor.
Qed.

(** X29. When WHOIS raises, [WebsiteAnalyzer.perform_additional_lookups]
    makes no TLS handshake and returns with the five looked-up keys at 0:
    here [sslfinal_state] is 0, where the same failure gives -1 in
    [FeatureExtractor]. *)
Theorem wa_lookups_whois_failure (r : Run World) (e : exn) (w' : World) :
  whois_whois (url (self r)) (world r) = (Raise e, w') ->
  fst (WA.perform_additional_lookups r) = Ret tt
  /\ calls (snd (WA.perform_additional_lookups r)) = calls r ++ [CallWhois (url (self r))]
  /\ Forall (fun k => features (self (snd (WA.perform_additional_lookups r))) !! k
                      = Some 0)
       looked_up_keys.
Proof.
  destruct r as [[u p d h s rs f] w cs]. cbn [self url world]. intros Hw.
  unfold WA.perform_additional_lookups. run_lookups. rewrite Hw. run_lookups.
  split; [reflexivity|]. split; [reflexivity|].
  unfold looked_up_keys; repeat (apply Forall_cons; split;
    [cbn beta; rewrite reset_lookups_lookup; reflexivity|]).
  constructor.
Qed.

(** X30. On an object as the constructors leave it (the parse is that of
    the URL, [domain] its authority), the lexical derivers of the two
    classes end alike and agree on every lexical key except
    [shortining_service], for which they search different lists. *)
Theorem wa_lexical_agrees (r : Run World) :
  parsed_url (self r) = urlparse (url (self r)) ->
  domain (self r) = netloc (parsed_url (self r)) ->
  fst (WA.extract_url_features r) = fst (_extract_url_features r)
  /\ Forall (fun k => features (self (snd (WA.extract_url_features r))) !! k
                      = features (self (snd (_extract_url_features r))) !! k)
       [ "url_length"; "having_ip_address"; "having_at_symbol";
         "double_slash_redirecting"; "prefix_suffix"; "having_sub_domain"; "port";
         "https_token" ].
Proof.
  destruct r as [[u p d h s rs f] w cs]. cbn [self parsed_url url domain].
  intros -> ->. unfold WA.extract_url_features, _extract_url_features. run_method.
  destruct (port (urlparse u)); run_method; (split; [reflexivity|]);
    repeat (apply Forall_cons; split; [cbn beta; lookup_inserts; reflexivity|]);
    constructor.
Qed.

End AnalyzerFacts.

(** In the world whose parser rejects the page, the exception of the
    parser reaches the caller of [WebsiteAnalyzer.fetch_website], while
    [FeatureExtractor.fetch_website] returns [False]. *)
Example wa_parser_exception_reaches_caller :
  fst (WA.fetch_website Rejected.start) = Raise (PyException "ParserRejectedMarkup")
  /\ fst (fetch_website 2 Rejected.start) = Ret false.
Proof. vm_compute. split; reflexivity. Qed.

Lemma wa_lookups_without_response_witness :
  response (self Online.start) = None
  /\ fst (WA.perform_additional_lookups Online.start) = Ret tt.
Proof.
  assert (H : response (self Online.start) = None) by reflexivity.
  split; [exact H|]. exact (proj1 (wa_lookups_without_response Online.start H)).
Defined.

Lemma wa_lookups_whois_failure_witness :
  whois_whois (url (self Offline.start)) (world Offline.start)
  = (Raise (PyException "PywhoisError"), tt)
  /\ fst (WA.perform_additional_lookups Offline.start) = Ret tt.
Proof.
  assert (H : whois_whois (url (self Offline.start)) (world Offline.start)
              = (Raise (PyException "PywhoisError"), tt)) by reflexivity.
  split; [exact H|].
  exact (proj1 (wa_lookups_whois_failure Offline.start _ _ H)).
Defined.

Lemma wa_lexical_agrees_witness :
  (parsed_url (self Offline.start) = urlparse (url (self Offline.start))
   /\ domain (self Offline.start) = netloc (parsed_url (self Offline.start)))
  /\ fst (WA.extract_url_features Offline.start) = fst (_extract_url_features Offline.start).
Proof.
  split; [split; reflexivity|].
  exact (proj1 (wa_lexical_agrees Offline.start eq_refl eq_refl)).
Defined.
